(** * node-toxcore, lib/old/toxencryptsave.js

    A shallow embedding of the [ToxEncryptSave] wrapper around
    libtoxencryptsave.  The JavaScript methods become functions over an
    explicit receiver record; their effects (calls into the ffi library,
    [new Buffer(n)] allocations, invocations of the caller's callback,
    thrown exceptions) are threaded through a small log-and-exception
    monad, so that statements such as "the primitive is never invoked" or
    "the callback is invoked once" are statements about the log. *)

From Stdlib Require Import ZArith List String Bool Lia.
From Stdlib Require Import Init.Byte Ascii.
Import ListNotations.

Local Open Scope string_scope.
Local Open Scope Z_scope.

(** ** JavaScript values that cross the wrapper's interface *)

(** A Node [Buffer]: a fixed-length sequence of octets. *)
Definition Buffer := list byte.

(** [buf.length] *)
Definition Buffer_length (b : Buffer) : Z := Z.of_nat (List.length b).

(** [new Buffer(str)]: the octets of the text.  A Rocq [string] is already
    a sequence of octets, read here as the UTF-8 form of the text. *)
Definition Buffer_of_string (s : string) : Buffer := list_byte_of_string s.

(** The content of [new Buffer(size)].  The Node releases this module was
    written for (0.10 to 5.x) clamp a negative size to zero.  On those
    releases the fresh memory is not initialised: it is shown here as zero
    octets, and only the length of a fresh buffer and the octets a primitive
    wrote into it are meaningful ([holds_output] below).  (The upper
    allocation limit of the runtime is a resource bound and is left out.) *)
Definition Buffer_alloc (size : Z) : Buffer :=
  repeat x00 (Z.to_nat (Z.max 0 size)).

(** What a C primitive leaves in the buffer it was handed a pointer to:
    the octets it wrote, seen through the unchanged length of the buffer. *)
Definition Buffer_fill (out written : Buffer) : Buffer :=
  firstn (List.length out) (written ++ skipn (List.length written) out)%list.

(** A parameter documented as [(Buffer|String)]. *)
Inductive BufferOrString :=
| IsBuffer (b : Buffer)
| IsString (s : string).

(** [if(_.isString(x)) { x = new Buffer(x); }] *)
Definition toBuffer (x : BufferOrString) : Buffer :=
  match x with
  | IsBuffer b => b
  | IsString s => Buffer_of_string s
  end.

(** Modelled from the spec: the errors module ([createNonZeroReturnError],
    [createReturnError]) is not part of the sources at hand.  Section 4.4
    gives [NonZeroReturnError(operation, code)] and
    [ReturnMismatchError(operation, actualBytesWritten, expectedLength)].
    [Error message] is a plain JavaScript [new Error(message)], which is
    what [_createNoHandleError] builds; [TypeError message] is the
    [new TypeError(message)] with which ffi refuses a call. *)
Inductive JsError :=
| Error (message : string)
| TypeError (message : string)
| NonZeroReturnError (operation : string) (code : Z)
| ReturnMismatchError (operation : string) (actual expected : Z).

Definition createNonZeroReturnError (name : string) (res : Z) : JsError :=
  NonZeroReturnError name res.

Definition createReturnError (name : string) (res expected : Z) : JsError :=
  ReturnMismatchError name res expected.

(** Modelled from the spec: [consts.TOX_SALT_LENGTH] (the consts module is
    not part of the sources at hand); section 8 fixes it at 32, the value of
    crypto_pwhash_scryptsalsa208sha256_SALTBYTES named in the source. *)
Definition TOX_SALT_LENGTH : Z := 32.

(** What a method hands back or passes to a callback. *)
Inductive Value :=
| VUndefined
| VNumber (n : Z)
| VBuffer (b : Buffer)
| VBoolean (b : bool).

(** ** Effects *)

Inductive Event :=
| EvCall (symbol : string)                        (* a primitive of the library is entered *)
| EvAlloc (size : Z)                              (* new Buffer(size) *)
| EvCallback (err : option JsError) (res : Value) (* the caller's callback is invoked *).

Inductive Outcome (A : Type) :=
| Return (a : A)
| Throw (e : JsError).
Arguments Return {A} a.
Arguments Throw {A} e.

(** A computation: the events it performed, in order, and how it ended. *)
Definition M (A : Type) : Type := (list Event * Outcome A)%type.

Definition ret {A} (a : A) : M A := ([], Return a).
Definition throw {A} (e : JsError) : M A := ([], Throw e).
Definition emit (ev : Event) : M unit := ([ev], Return tt).

Definition bind {A B} (m : M A) (f : A -> M B) : M B :=
  match m with
  | (log, Return a) => let (log', o) := f a in ((log ++ log')%list, o)
  | (log, Throw e) => (log, Throw e)
  end.

Notation "x <- m ;; k" := (bind m (fun x => k))
  (at level 61, m at next level, right associativity).
Notation "' pat <- m ;; k" := (bind m (fun x => match x with pat => k end))
  (at level 61, pat pattern, m at next level, right associativity).
Notation "m ;;; k" := (bind m (fun _ => k))
  (at level 61, right associativity).

Definition events {A} (m : M A) : list Event := fst m.
Definition outcome {A} (m : M A) : Outcome A := snd m.

(** [new Buffer(size)] as an effect. *)
Definition new_Buffer (size : Z) : M Buffer :=
  emit (EvAlloc size) ;;; ret (Buffer_alloc size).

(** ** The ffi library *)

(** Outcome of one foreign call: the ffi layer failed, or the primitive
    returned. *)
Inductive ffi_result (A : Type) :=
| FfiErr (e : JsError)
| FfiRet (a : A).
Arguments FfiErr {A} e.
Arguments FfiRet {A} a.

(** The session object's native handle. *)
Definition Handle := positive.

(** The part of a [Tox] instance that this module reads. *)
Record Tox := { handle : option Handle }.

(** The table of [createLibrary].  A pointer to an input buffer is the
    buffer; the output pointer is left out of the arguments and a primitive
    that writes through it returns the octets written next to its [int].
    A handle argument is what [getHandle()] gave, possibly [undefined]. *)
Record Library := {
  tox_pass_encryption_extra_length : ffi_result Z;
  tox_pass_key_length : ffi_result Z;
  tox_pass_salt_length : ffi_result Z;
  tox_encrypted_size : option Handle -> ffi_result Z;
  tox_pass_encrypt : Buffer -> Z -> Buffer -> Z -> ffi_result (Z * Buffer);
  tox_encrypted_save : option Handle -> Buffer -> Z -> ffi_result (Z * Buffer);
  tox_pass_decrypt : Buffer -> Z -> Buffer -> Z -> ffi_result (Z * Buffer);
  tox_encrypted_load : option Handle -> Buffer -> Z -> Buffer -> Z -> ffi_result Z;
  tox_derive_key_from_pass : Buffer -> Z -> ffi_result (Z * Buffer);
  tox_derive_key_with_salt : Buffer -> Z -> Buffer -> ffi_result (Z * Buffer);
  tox_get_salt : Buffer -> ffi_result (Z * Buffer);
  tox_pass_key_encrypt : Buffer -> Z -> Buffer -> ffi_result (Z * Buffer);
  tox_encrypted_key_save : option Handle -> Buffer -> ffi_result (Z * Buffer);
  tox_pass_key_decrypt : Buffer -> Z -> Buffer -> ffi_result (Z * Buffer);
  tox_encrypted_key_load : option Handle -> Buffer -> Z -> Buffer -> ffi_result Z;
  tox_is_data_encrypted : Buffer -> ffi_result Z
}.

(** [lib.f(args)]: the primitive runs; a failure of the ffi layer is thrown. *)
Definition ffi_call (symbol : string) (r : ffi_result Z) : M Z :=
  emit (EvCall symbol) ;;;
  match r with
  | FfiErr e => throw e
  | FfiRet res => ret res
  end.

(** The same for a primitive that writes through [out]: the buffer object
    the caller holds afterwards comes back with the [int]. *)
Definition ffi_call_out (symbol : string) (r : ffi_result (Z * Buffer))
    (out : Buffer) : M (Z * Buffer) :=
  emit (EvCall symbol) ;;;
  match r with
  | FfiErr e => throw e
  | FfiRet (res, written) => ret (res, Buffer_fill out written)
  end.

(** [lib.f.async(args, cb)]: ffi refuses, with a [TypeError] (its text is
    shortened here), a call whose last argument is not a function; otherwise
    the primitive runs and [cb] receives [(err)] or [(null, res)].  The suspension between the call and [cb] is not shown:
    the continuation is run where the result becomes known. *)
Definition ffi_async (symbol : string) (r : ffi_result Z)
    (cb : option (ffi_result Z -> M unit)) : M unit :=
  match cb with
  | None => throw (TypeError "Expected a callback function")
  | Some k => emit (EvCall symbol) ;;; k r
  end.

Definition ffi_async_out (symbol : string) (r : ffi_result (Z * Buffer))
    (out : Buffer) (k : ffi_result Z -> Buffer -> M unit) : M unit :=
  emit (EvCall symbol) ;;;
  match r with
  | FfiErr e => k (FfiErr e) out
  | FfiRet (res, written) => k (FfiRet res) (Buffer_fill out written)
  end.

(** ** Callbacks *)

(** [ToxEncryptSave~sizeCallback]: [(Error, Number)], exactly one of them
    given. *)
Definition sizeCallback := ffi_result Z -> M unit.
(** [ToxEncryptSave~dataCallback]: [(Error, Buffer)]. *)
Definition dataCallback := option JsError -> option Buffer -> M unit.
(** [ToxEncryptSave~errorCallback]: [(Error)]. *)
Definition errorCallback := option JsError -> M unit.
(** [ToxEncryptSave~booleanCallback]: [(Error, Boolean)]. *)
Definition booleanCallback := option JsError -> option bool -> M unit.

(** [callback(err)]: a call with the error as the only argument. *)
Class Callback (C : Type) := call_with_error : C -> JsError -> M unit.

#[global] Instance sizeCallback_Callback : Callback sizeCallback :=
  fun cb e => cb (FfiErr e).
#[global] Instance dataCallback_Callback : Callback dataCallback :=
  fun cb e => cb (Some e) None.
#[global] Instance errorCallback_Callback : Callback errorCallback :=
  fun cb e => cb (Some e).
#[global] Instance booleanCallback_Callback : Callback booleanCallback :=
  fun cb e => cb (Some e) None.

(** [if(callback) { ... callback ... }] *)
Definition if_callback {C} (callback : option C) (k : C -> M unit) : M unit :=
  match callback with
  | Some cb => k cb
  | None => ret tt
  end.

(** Modelled from the spec: [sync.hasCallback] (the sync module is not part
    of the sources at hand) tells whether the caller supplied a completion
    handler. *)
Definition hasCallback {C} (args_callback : option C) : bool :=
  match args_callback with
  | Some _ => true
  | None => false
  end.

(** ** The ToxEncryptSave object *)

Record ToxEncryptSave := {
  _tox : option Tox;
  _libpath : option string;
  _sync : bool;
  _toxencryptsave : Library
}.

(** The options object: [opts['path']], [opts['sync']] ([None] for
    undefined or null). *)
Record Opts := { opt_path : option string; opt_sync : option bool }.

Definition empty_opts : Opts := {| opt_path := None; opt_sync := None |}.

(** An argument of the constructor. *)
Inductive CtorArg :=
| ArgUndefined
| ArgTox (t : Tox)
| ArgOpts (o : Opts).

Definition instanceof_Tox (a : CtorArg) : bool :=
  match a with ArgTox _ => true | _ => false end.

(** [createLibrary(libpath)], over the loader [ffi.Library]. *)
Definition createLibrary (ffi_Library : string -> Library)
    (libpath : option string) : Library :=
  ffi_Library (match libpath with
               | Some p => if String.eqb p "" then "libtoxencryptsave" else p
               | None => "libtoxencryptsave"
               end).

(** [new ToxEncryptSave(tox, opts)] *)
Definition new_ToxEncryptSave (ffi_Library : string -> Library)
    (arguments : list CtorArg) : ToxEncryptSave :=
  let tox := nth 0 arguments ArgUndefined in
  let opts := nth 1 arguments ArgUndefined in
  let '(tox, opts) :=
    if (Nat.eqb (List.length arguments) 1 && negb (instanceof_Tox tox))%bool
    then (ArgUndefined, tox) else (tox, opts) in
  let tox := match tox with ArgTox t => Some t | _ => None end in
  let opts := match opts with ArgOpts o => o | _ => empty_opts end in
  let sync := match opt_sync opts with
              | None => true
              | Some b => negb (negb b)
              end in
  {| _tox := tox;
     _libpath := opt_path opts;
     _sync := sync;
     _toxencryptsave := createLibrary ffi_Library (opt_path opts) |}.

Section Methods.

Variable this : ToxEncryptSave.

Definition _useSync {C} (args_callback : option C) : bool :=
  (_sync this && negb (hasCallback args_callback))%bool.

Definition getLibrary : Library := _toxencryptsave this.

Definition getHandle : option Handle :=
  match _tox this with
  | Some tox => handle tox
  | None => None
  end.

Definition _createNoHandleError : JsError := Error "No handle".

Definition _checkHandle {C} `{Callback C} (callback : option C) : M bool :=
  match getHandle, callback with
  | None, Some cb => call_with_error cb _createNoHandleError ;;; ret false
  | _, _ => ret true
  end.

Definition _checkHandleSync : M unit :=
  match getHandle with
  | None => throw _createNoHandleError
  | Some _ => ret tt
  end.

(** *** Length and size queries *)

Definition getEncryptionExtraLengthSync : M Z :=
  ffi_call "tox_pass_encryption_extra_length"
           (tox_pass_encryption_extra_length getLibrary).

Definition getEncryptionExtraLength (callback : option sizeCallback)
    : M (option Z) :=
  if _useSync callback then
    n <- getEncryptionExtraLengthSync ;; ret (Some n)
  else
    ffi_async "tox_pass_encryption_extra_length"
              (tox_pass_encryption_extra_length getLibrary) callback ;;;
    ret None.

Definition getKeyLengthSync : M Z :=
  ffi_call "tox_pass_key_length" (tox_pass_key_length getLibrary).

Definition getKeyLength (callback : option sizeCallback) : M (option Z) :=
  if _useSync callback then
    n <- getKeyLengthSync ;; ret (Some n)
  else
    ffi_async "tox_pass_key_length" (tox_pass_key_length getLibrary) callback ;;;
    ret None.

Definition getSaltLengthSync : M Z :=
  ffi_call "tox_pass_salt_length" (tox_pass_salt_length getLibrary).

Definition getSaltLength (callback : option sizeCallback) : M (option Z) :=
  if _useSync callback then
    n <- getSaltLengthSync ;; ret (Some n)
  else
    ffi_async "tox_pass_salt_length" (tox_pass_salt_length getLibrary) callback ;;;
    ret None.

Definition getEncryptedSizeSync : M Z :=
  _checkHandleSync ;;;
  ffi_call "tox_encrypted_size" (tox_encrypted_size getLibrary getHandle).

Definition getEncryptedSize (callback : option sizeCallback) : M (option Z) :=
  if _useSync callback then
    n <- getEncryptedSizeSync ;; ret (Some n)
  else
    ok <- _checkHandle callback ;;
    if negb ok then ret None
    else
      ffi_async "tox_encrypted_size" (tox_encrypted_size getLibrary getHandle)
                callback ;;;
      ret None.

(** *** The two checks made on a primitive's return value *)

(** [if(!err && res !== 0) { err = createNonZeroReturnError(name, res); }] *)
Definition err_unless_zero (name : string) (r : ffi_result Z) : option JsError :=
  match r with
  | FfiErr err => Some err
  | FfiRet res => if res =? 0 then None else Some (createNonZeroReturnError name res)
  end.

(** [if(!err && res !== outBuffer.length) {
       err = createReturnError(name, res, outBuffer.length); }] *)
Definition err_unless_length (name : string) (r : ffi_result Z)
    (outBuffer : Buffer) : option JsError :=
  match r with
  | FfiErr err => Some err
  | FfiRet res =>
      if res =? Buffer_length outBuffer then None
      else Some (createReturnError name res (Buffer_length outBuffer))
  end.

(** *** tox_pass_encrypt, tox_pass_decrypt *)

Definition passEncryptSync (data passphrase : BufferOrString) : M Buffer :=
  let data := toBuffer data in
  let passphrase := toBuffer passphrase in
  extraLength <- getEncryptionExtraLengthSync ;;
  outBuffer <- new_Buffer (Buffer_length data + extraLength) ;;
  '(res, outBuffer) <- ffi_call_out "tox_pass_encrypt"
      (tox_pass_encrypt getLibrary data (Buffer_length data)
                        passphrase (Buffer_length passphrase)) outBuffer ;;
  if negb (res =? 0) then throw (createNonZeroReturnError "tox_pass_encrypt" res)
  else ret outBuffer.

Definition passEncrypt (data passphrase : BufferOrString)
    (callback : option dataCallback) : M (option Buffer) :=
  if _useSync callback then
    b <- passEncryptSync data passphrase ;; ret (Some b)
  else
    let data := toBuffer data in
    let passphrase := toBuffer passphrase in
    getEncryptionExtraLength (Some (fun r =>
      match r with
      | FfiRet extraLength =>
          outBuffer <- new_Buffer (Buffer_length data + extraLength) ;;
          ffi_async_out "tox_pass_encrypt"
            (tox_pass_encrypt getLibrary data (Buffer_length data)
                              passphrase (Buffer_length passphrase)) outBuffer
            (fun r outBuffer =>
               let err := err_unless_zero "tox_pass_encrypt" r in
               if_callback callback (fun cb => cb err (Some outBuffer)))
      | FfiErr err => if_callback callback (fun cb => call_with_error cb err)
      end)) ;;;
    ret None.

Definition passDecryptSync (data passphrase : BufferOrString) : M Buffer :=
  let data := toBuffer data in
  let passphrase := toBuffer passphrase in
  extraLength <- getEncryptionExtraLengthSync ;;
  outBuffer <- new_Buffer (Buffer_length data - extraLength) ;;
  '(res, outBuffer) <- ffi_call_out "tox_pass_decrypt"
      (tox_pass_decrypt getLibrary data (Buffer_length data)
                        passphrase (Buffer_length passphrase)) outBuffer ;;
  if negb (res =? Buffer_length outBuffer)
  then throw (createReturnError "tox_pass_decrypt" res (Buffer_length outBuffer))
  else ret outBuffer.

Definition passDecrypt (data passphrase : BufferOrString)
    (callback : option dataCallback) : M (option Buffer) :=
  if _useSync callback then
    b <- passDecryptSync data passphrase ;; ret (Some b)
  else
    let data := toBuffer data in
    let passphrase := toBuffer passphrase in
    getEncryptionExtraLength (Some (fun r =>
      match r with
      | FfiRet extraLength =>
          outBuffer <- new_Buffer (Buffer_length data - extraLength) ;;
          ffi_async_out "tox_pass_decrypt"
            (tox_pass_decrypt getLibrary data (Buffer_length data)
                              passphrase (Buffer_length passphrase)) outBuffer
            (fun r outBuffer =>
               let err := err_unless_length "tox_pass_decrypt" r outBuffer in
               if_callback callback (fun cb => cb err (Some outBuffer)))
      | FfiErr err => if_callback callback (fun cb => call_with_error cb err)
      end)) ;;;
    ret None.

(** *** tox_encrypted_load, tox_encrypted_save *)

Definition encryptedLoadSync (data passphrase : BufferOrString) : M unit :=
  _checkHandleSync ;;;
  let data := toBuffer data in
  let passphrase := toBuffer passphrase in
  result <- ffi_call "tox_encrypted_load"
      (tox_encrypted_load getLibrary getHandle data (Buffer_length data)
                          passphrase (Buffer_length passphrase)) ;;
  if negb (result =? 0) then throw (createNonZeroReturnError "tox_encrypted_load" result)
  else ret tt.

Definition encryptedLoad (data passphrase : BufferOrString)
    (callback : option errorCallback) : M unit :=
  if _useSync callback then encryptedLoadSync data passphrase
  else
    ok <- _checkHandle callback ;;
    if negb ok then ret tt
    else
      let data := toBuffer data in
      let passphrase := toBuffer passphrase in
      ffi_async "tox_encrypted_load"
        (tox_encrypted_load getLibrary getHandle data (Buffer_length data)
                            passphrase (Buffer_length passphrase))
        (Some (fun r =>
           let err := err_unless_zero "tox_encrypted_load" r in
           if_callback callback (fun cb => cb err))).

Definition encryptedSaveSync (passphrase : BufferOrString) : M Buffer :=
  _checkHandleSync ;;;
  let passphrase := toBuffer passphrase in
  encSize <- getEncryptedSizeSync ;;
  outBuffer <- new_Buffer encSize ;;
  '(result, outBuffer) <- ffi_call_out "tox_encrypted_save"
      (tox_encrypted_save getLibrary getHandle passphrase (Buffer_length passphrase))
      outBuffer ;;
  if negb (result =? 0) then throw (createNonZeroReturnError "tox_encrypted_save" result)
  else ret outBuffer.

Definition encryptedSave (passphrase : BufferOrString)
    (callback : option dataCallback) : M (option Buffer) :=
  if _useSync callback then
    b <- encryptedSaveSync passphrase ;; ret (Some b)
  else
    ok <- _checkHandle callback ;;
    if negb ok then ret None
    else
      let passphrase := toBuffer passphrase in
      getEncryptedSize (Some (fun r =>
        match r with
        | FfiRet encSize =>
            outBuffer <- new_Buffer encSize ;;
            ffi_async_out "tox_encrypted_save"
              (tox_encrypted_save getLibrary getHandle passphrase
                                  (Buffer_length passphrase)) outBuffer
              (fun r outBuffer =>
                 let err := err_unless_zero "tox_encrypted_save" r in
                 if_callback callback (fun cb => cb err (Some outBuffer)))
        | FfiErr err => if_callback callback (fun cb => call_with_error cb err)
        end)) ;;;
      ret None.

(** *** tox_derive_key_from_pass, tox_derive_key_with_salt *)

Definition deriveKeyFromPassSync (passphrase : BufferOrString) : M Buffer :=
  let passphrase := toBuffer passphrase in
  keyLength <- getKeyLengthSync ;;
  outBuffer <- new_Buffer keyLength ;;
  '(result, outBuffer) <- ffi_call_out "tox_derive_key_from_pass"
      (tox_derive_key_from_pass getLibrary passphrase (Buffer_length passphrase))
      outBuffer ;;
  if negb (result =? 0)
  then throw (createNonZeroReturnError "tox_derive_key_from_pass" result)
  else ret outBuffer.

Definition deriveKeyFromPass (passphrase : BufferOrString)
    (callback : option dataCallback) : M (option Buffer) :=
  if _useSync callback then
    b <- deriveKeyFromPassSync passphrase ;; ret (Some b)
  else
    getKeyLength (Some (fun r =>
      match r with
      | FfiRet keyLength =>
          outBuffer <- new_Buffer keyLength ;;
          let passphrase := toBuffer passphrase in
          ffi_async_out "tox_derive_key_from_pass"
            (tox_derive_key_from_pass getLibrary passphrase (Buffer_length passphrase))
            outBuffer
            (fun r outBuffer =>
               let err := err_unless_zero "tox_derive_key_from_pass" r in
               if_callback callback (fun cb => cb err (Some outBuffer)))
      | FfiErr err => if_callback callback (fun cb => call_with_error cb err)
      end)) ;;;
    ret None.

Definition deriveKeyWithSaltSync (passphrase : BufferOrString) (salt : Buffer)
    : M Buffer :=
  let passphrase := toBuffer passphrase in
  keyLength <- getKeyLengthSync ;;
  outBuffer <- new_Buffer keyLength ;;
  '(result, outBuffer) <- ffi_call_out "tox_derive_key_with_salt"
      (tox_derive_key_with_salt getLibrary passphrase (Buffer_length passphrase) salt)
      outBuffer ;;
  if negb (result =? 0)
  then throw (createNonZeroReturnError "tox_derive_key_with_salt" result)
  else ret outBuffer.

Definition deriveKeyWithSalt (passphrase : BufferOrString) (salt : Buffer)
    (callback : option dataCallback) : M (option Buffer) :=
  if _useSync callback then
    b <- deriveKeyWithSaltSync passphrase salt ;; ret (Some b)
  else
    getKeyLength (Some (fun r =>
      match r with
      | FfiRet keyLength =>
          outBuffer <- new_Buffer keyLength ;;
          let passphrase := toBuffer passphrase in
          ffi_async_out "tox_derive_key_with_salt"
            (tox_derive_key_with_salt getLibrary passphrase
                                      (Buffer_length passphrase) salt)
            outBuffer
            (fun r outBuffer =>
               let err := err_unless_zero "tox_derive_key_with_salt" r in
               if_callback callback (fun cb => cb err (Some outBuffer)))
      | FfiErr err => if_callback callback (fun cb => call_with_error cb err)
      end)) ;;;
    ret None.

(** *** tox_get_salt *)

Definition getSaltSync (data : Buffer) : M Buffer :=
  saltBuffer <- new_Buffer TOX_SALT_LENGTH ;;
  '(result, saltBuffer) <- ffi_call_out "tox_get_salt"
      (tox_get_salt getLibrary data) saltBuffer ;;
  if negb (result =? 0) then throw (createNonZeroReturnError "tox_get_salt" result)
  else ret saltBuffer.

Definition getSalt (data : Buffer) (callback : option dataCallback)
    : M (option Buffer) :=
  if _useSync callback then
    b <- getSaltSync data ;; ret (Some b)
  else
    saltBuffer <- new_Buffer TOX_SALT_LENGTH ;;
    ffi_async_out "tox_get_salt" (tox_get_salt getLibrary data) saltBuffer
      (fun r saltBuffer =>
         let err := err_unless_zero "tox_get_salt" r in
         if_callback callback (fun cb => cb err (Some saltBuffer))) ;;;
    ret None.

(** *** tox_pass_key_encrypt, tox_pass_key_decrypt *)

Definition passKeyEncryptSync (data : BufferOrString) (key : Buffer) : M Buffer :=
  let data := toBuffer data in
  extraLength <- getEncryptionExtraLengthSync ;;
  outBuffer <- new_Buffer (Buffer_length data + extraLength) ;;
  '(result, outBuffer) <- ffi_call_out "tox_pass_key_encrypt"
      (tox_pass_key_encrypt getLibrary data (Buffer_length data) key) outBuffer ;;
  if negb (result =? 0)
  then throw (createNonZeroReturnError "tox_pass_key_encrypt" result)
  else ret outBuffer.

Definition passKeyEncrypt (data : BufferOrString) (key : Buffer)
    (callback : option dataCallback) : M (option Buffer) :=
  if _useSync callback then
    b <- passKeyEncryptSync data key ;; ret (Some b)
  else
    let data := toBuffer data in
    getEncryptionExtraLength (Some (fun r =>
      match r with
      | FfiRet extraLength =>
          outBuffer <- new_Buffer (Buffer_length data + extraLength) ;;
          ffi_async_out "tox_pass_key_encrypt"
            (tox_pass_key_encrypt getLibrary data (Buffer_length data) key) outBuffer
            (fun r outBuffer =>
               let err := err_unless_zero "tox_pass_key_encrypt" r in
               if_callback callback (fun cb => cb err (Some outBuffer)))
      | FfiErr err => if_callback callback (fun cb => call_with_error cb err)
      end)) ;;;
    ret None.

Definition passKeyDecryptSync (data key : Buffer) : M Buffer :=
  extraLength <- getEncryptionExtraLengthSync ;;
  outBuffer <- new_Buffer (Buffer_length data - extraLength) ;;
  '(result, outBuffer) <- ffi_call_out "tox_pass_key_decrypt"
      (tox_pass_key_decrypt getLibrary data (Buffer_length data) key) outBuffer ;;
  if negb (result =? Buffer_length outBuffer)
  then throw (createReturnError "tox_pass_key_decrypt" result (Buffer_length outBuffer))
  else ret outBuffer.

Definition passKeyDecrypt (data key : Buffer) (callback : option dataCallback)
    : M (option Buffer) :=
  if _useSync callback then
    b <- passKeyDecryptSync data key ;; ret (Some b)
  else
    getEncryptionExtraLength (Some (fun r =>
      match r with
      | FfiRet extraLength =>
          outBuffer <- new_Buffer (Buffer_length data - extraLength) ;;
          ffi_async_out "tox_pass_key_decrypt"
            (tox_pass_key_decrypt getLibrary data (Buffer_length data) key) outBuffer
            (fun r outBuffer =>
               let err := err_unless_length "tox_pass_key_decrypt" r outBuffer in
               if_callback callback (fun cb => cb err (Some outBuffer)))
      | FfiErr err => if_callback callback (fun cb => call_with_error cb err)
      end)) ;;;
    ret None.

(** *** tox_encrypted_key_save, tox_encrypted_key_load *)

Definition encryptedKeySaveSync (key : Buffer) : M Buffer :=
  _checkHandleSync ;;;
  encSize <- getEncryptedSizeSync ;;
  outBuffer <- new_Buffer encSize ;;
  '(result, outBuffer) <- ffi_call_out "tox_encrypted_key_save"
      (tox_encrypted_key_save getLibrary getHandle key) outBuffer ;;
  if negb (result =? 0)
  then throw (createNonZeroReturnError "tox_encrypted_key_save" result)
  else ret outBuffer.

Definition encryptedKeySave (key : Buffer) (callback : option dataCallback)
    : M (option Buffer) :=
  if _useSync callback then
    b <- encryptedKeySaveSync key ;; ret (Some b)
  else
    ok <- _checkHandle callback ;;
    if negb ok then ret None
    else
      getEncryptedSize (Some (fun r =>
        match r with
        | FfiRet encSize =>
            outBuffer <- new_Buffer encSize ;;
            ffi_async_out "tox_encrypted_key_save"
              (tox_encrypted_key_save getLibrary getHandle key) outBuffer
              (fun r outBuffer =>
                 let err := err_unless_zero "tox_encrypted_key_save" r in
                 if_callback callback (fun cb => cb err (Some outBuffer)))
        | FfiErr err => if_callback callback (fun cb => call_with_error cb err)
        end)) ;;;
      ret None.

Definition encryptedKeyLoadSync (data key : Buffer) : M unit :=
  _checkHandleSync ;;;
  result <- ffi_call "tox_encrypted_key_load"
      (tox_encrypted_key_load getLibrary getHandle data (Buffer_length data) key) ;;
  if negb (result =? 0)
  then throw (createNonZeroReturnError "tox_encrypted_key_load" result)
  else ret tt.

Definition encryptedKeyLoad (data key : Buffer) (callback : option errorCallback)
    : M unit :=
  if _useSync callback then encryptedKeyLoadSync data key
  else
    ok <- _checkHandle callback ;;
    if negb ok then ret tt
    else
      ffi_async "tox_encrypted_key_load"
        (tox_encrypted_key_load getLibrary getHandle data (Buffer_length data) key)
        (Some (fun r =>
           let err := err_unless_zero "tox_encrypted_key_load" r in
           if_callback callback (fun cb => cb err))).

(** *** tox_is_data_encrypted *)

Definition isDataEncryptedSync (data : Buffer) : M bool :=
  result <- ffi_call "tox_is_data_encrypted" (tox_is_data_encrypted getLibrary data) ;;
  ret (result =? 1).

Definition isDataEncrypted (data : Buffer) (callback : option booleanCallback)
    : M (option bool) :=
  if _useSync callback then
    b <- isDataEncryptedSync data ;; ret (Some b)
  else
    ffi_async "tox_is_data_encrypted" (tox_is_data_encrypted getLibrary data)
      (Some (fun r =>
         let isEnc := match r with
                      | FfiRet res => Some (res =? 1)
                      | FfiErr _ => None
                      end in
         let err := match r with
                    | FfiErr err => Some err
                    | FfiRet _ => None
                    end in
         if_callback callback (fun cb => cb err isEnc))) ;;;
    ret None.

End Methods.

(** ** The public operations, uniformly *)

(** The caller's completion handler: an observer, whose invocations are
    recorded with the two arguments it received. *)
Definition handler (err : option JsError) (res : Value) : M unit :=
  emit (EvCallback err res).

Definition size_handler : sizeCallback :=
  fun r => match r with
           | FfiErr e => handler (Some e) VUndefined
           | FfiRet n => handler None (VNumber n)
           end.

Definition data_handler : dataCallback :=
  fun err b => handler err (match b with Some b => VBuffer b | None => VUndefined end).

Definition error_handler : errorCallback :=
  fun err => handler err VUndefined.

Definition boolean_handler : booleanCallback :=
  fun err b => handler err (match b with Some b => VBoolean b | None => VUndefined end).

(** A call of one public operation: which one, and its arguments other than
    the callback. *)
Inductive Operation :=
| GetEncryptionExtraLength
| GetKeyLength
| GetSaltLength
| GetEncryptedSize
| PassEncrypt (data passphrase : BufferOrString)
| PassDecrypt (data passphrase : BufferOrString)
| EncryptedLoad (data passphrase : BufferOrString)
| EncryptedSave (passphrase : BufferOrString)
| DeriveKeyFromPass (passphrase : BufferOrString)
| DeriveKeyWithSalt (passphrase : BufferOrString) (salt : Buffer)
| GetSalt (data : Buffer)
| PassKeyEncrypt (data : BufferOrString) (key : Buffer)
| PassKeyDecrypt (data key : Buffer)
| EncryptedKeySave (key : Buffer)
| EncryptedKeyLoad (data key : Buffer)
| IsDataEncrypted (data : Buffer).

Definition pick {C} (with_handler : bool) (h : C) : option C :=
  if with_handler then Some h else None.

Definition number_or_undefined (m : M (option Z)) : M Value :=
  r <- m ;; ret (match r with Some n => VNumber n | None => VUndefined end).

Definition buffer_or_undefined (m : M (option Buffer)) : M Value :=
  r <- m ;; ret (match r with Some b => VBuffer b | None => VUndefined end).

Definition boolean_or_undefined (m : M (option bool)) : M Value :=
  r <- m ;; ret (match r with Some b => VBoolean b | None => VUndefined end).

Definition undefined (m : M unit) : M Value := m ;;; ret VUndefined.

(** The entry point that takes an optional callback (the non-blocking
    convention), with the observer as callback or with none. *)
Definition invoke (this : ToxEncryptSave) (op : Operation) (with_handler : bool)
    : M Value :=
  match op with
  | GetEncryptionExtraLength =>
      number_or_undefined (getEncryptionExtraLength this (pick with_handler size_handler))
  | GetKeyLength =>
      number_or_undefined (getKeyLength this (pick with_handler size_handler))
  | GetSaltLength =>
      number_or_undefined (getSaltLength this (pick with_handler size_handler))
  | GetEncryptedSize =>
      number_or_undefined (getEncryptedSize this (pick with_handler size_handler))
  | PassEncrypt data passphrase =>
      buffer_or_undefined (passEncrypt this data passphrase (pick with_handler data_handler))
  | PassDecrypt data passphrase =>
      buffer_or_undefined (passDecrypt this data passphrase (pick with_handler data_handler))
  | EncryptedLoad data passphrase =>
      undefined (encryptedLoad this data passphrase (pick with_handler error_handler))
  | EncryptedSave passphrase =>
      buffer_or_undefined (encryptedSave this passphrase (pick with_handler data_handler))
  | DeriveKeyFromPass passphrase =>
      buffer_or_undefined (deriveKeyFromPass this passphrase (pick with_handler data_handler))
  | DeriveKeyWithSalt passphrase salt =>
      buffer_or_undefined (deriveKeyWithSalt this passphrase salt (pick with_handler data_handler))
  | GetSalt data =>
      buffer_or_undefined (getSalt this data (pick with_handler data_handler))
  | PassKeyEncrypt data key =>
      buffer_or_undefined (passKeyEncrypt this data key (pick with_handler data_handler))
  | PassKeyDecrypt data key =>
      buffer_or_undefined (passKeyDecrypt this data key (pick with_handler data_handler))
  | EncryptedKeySave key =>
      buffer_or_undefined (encryptedKeySave this key (pick with_handler data_handler))
  | EncryptedKeyLoad data key =>
      undefined (encryptedKeyLoad this data key (pick with_handler error_handler))
  | IsDataEncrypted data =>
      boolean_or_undefined (isDataEncrypted this data (pick with_handler boolean_handler))
  end.

(** The [...Sync] entry point (the blocking convention). *)
Definition invokeSync (this : ToxEncryptSave) (op : Operation) : M Value :=
  match op with
  | GetEncryptionExtraLength => n <- getEncryptionExtraLengthSync this ;; ret (VNumber n)
  | GetKeyLength => n <- getKeyLengthSync this ;; ret (VNumber n)
  | GetSaltLength => n <- getSaltLengthSync this ;; ret (VNumber n)
  | GetEncryptedSize => n <- getEncryptedSizeSync this ;; ret (VNumber n)
  | PassEncrypt data passphrase =>
      b <- passEncryptSync this data passphrase ;; ret (VBuffer b)
  | PassDecrypt data passphrase =>
      b <- passDecryptSync this data passphrase ;; ret (VBuffer b)
  | EncryptedLoad data passphrase =>
      encryptedLoadSync this data passphrase ;;; ret VUndefined
  | EncryptedSave passphrase => b <- encryptedSaveSync this passphrase ;; ret (VBuffer b)
  | DeriveKeyFromPass passphrase =>
      b <- deriveKeyFromPassSync this passphrase ;; ret (VBuffer b)
  | DeriveKeyWithSalt passphrase salt =>
      b <- deriveKeyWithSaltSync this passphrase salt ;; ret (VBuffer b)
  | GetSalt data => b <- getSaltSync this data ;; ret (VBuffer b)
  | PassKeyEncrypt data key => b <- passKeyEncryptSync this data key ;; ret (VBuffer b)
  | PassKeyDecrypt data key => b <- passKeyDecryptSync this data key ;; ret (VBuffer b)
  | EncryptedKeySave key => b <- encryptedKeySaveSync this key ;; ret (VBuffer b)
  | EncryptedKeyLoad data key => encryptedKeyLoadSync this data key ;;; ret VUndefined
  | IsDataEncrypted data => b <- isDataEncryptedSync this data ;; ret (VBoolean b)
  end.

(** Which operations need the session handle. *)
Definition handle_bound (op : Operation) : bool :=
  match op with
  | GetEncryptedSize | EncryptedLoad _ _ | EncryptedSave _
  | EncryptedKeySave _ | EncryptedKeyLoad _ _ => true
  | _ => false
  end.

(** *** Reading a log *)

Definition is_call_of (symbol : string) (ev : Event) : bool :=
  match ev with EvCall s => String.eqb s symbol | _ => false end.

Definition is_callback (ev : Event) : bool :=
  match ev with EvCallback _ _ => true | _ => false end.

(** The invocations of the caller's callback, in order. *)
Definition callbacks (log : list Event) : list Event := filter is_callback log.

(** ** A stand-in library for examples

    Extra length 80, key and salt length 32; encryption prefixes 80 octets
    and refuses an empty passphrase with -1, decryption strips the prefix and
    reports -1 on input that is too short. *)
Definition example_Library (path : string) : Library := {|
  tox_pass_encryption_extra_length := FfiRet 80;
  tox_pass_key_length := FfiRet 32;
  tox_pass_salt_length := FfiRet 32;
  tox_encrypted_size := fun _ => FfiRet 100;
  tox_pass_encrypt := fun data _ _ pplength =>
    if pplength =? 0 then FfiRet (-1, []) else FfiRet (0, (repeat x2a 80 ++ data)%list);
  tox_encrypted_save := fun _ _ _ => FfiRet (0, repeat x2a 100);
  tox_pass_decrypt := fun data len _ _ =>
    if len <? 80 then FfiRet (-1, []) else FfiRet (len - 80, skipn 80 data);
  tox_encrypted_load := fun _ _ _ _ _ => FfiRet 0;
  tox_derive_key_from_pass := fun _ _ => FfiRet (0, repeat x2a 32);
  tox_derive_key_with_salt := fun _ _ _ => FfiRet (0, repeat x2a 32);
  tox_get_salt := fun data => FfiRet (0, firstn 32 (skipn 8 data));
  tox_pass_key_encrypt := fun data _ _ => FfiRet (0, (repeat x2a 80 ++ data)%list);
  tox_encrypted_key_save := fun _ _ => FfiRet (0, repeat x2a 100);
  tox_pass_key_decrypt := fun data len _ =>
    if len <? 80 then FfiRet (-1, []) else FfiRet (len - 80, skipn 80 data);
  tox_encrypted_key_load := fun _ _ _ _ => FfiRet 0;
  tox_is_data_encrypted := fun data => FfiRet (if 8 <=? Buffer_length data then 1 else 0)
|}.

(** [new ToxEncryptSave()] and [new ToxEncryptSave(tox)] over it. *)
Definition example_detached : ToxEncryptSave :=
  new_ToxEncryptSave example_Library [].

Definition example_attached : ToxEncryptSave :=
  new_ToxEncryptSave example_Library [ArgTox {| handle := Some 1%positive |}].

(** [new ToxEncryptSave({ sync: false })] *)
Definition example_detached_async : ToxEncryptSave :=
  new_ToxEncryptSave example_Library
    [ArgOpts {| opt_path := None; opt_sync := Some false |}].

(** A library on which [tox_encrypted_load] fails in the ffi layer. *)
Definition example_broken_load (path : string) : Library := {|
  tox_pass_encryption_extra_length := tox_pass_encryption_extra_length (example_Library path);
  tox_pass_key_length := tox_pass_key_length (example_Library path);
  tox_pass_salt_length := tox_pass_salt_length (example_Library path);
  tox_encrypted_size := tox_encrypted_size (example_Library path);
  tox_pass_encrypt := tox_pass_encrypt (example_Library path);
  tox_encrypted_save := tox_encrypted_save (example_Library path);
  tox_pass_decrypt := tox_pass_decrypt (example_Library path);
  tox_encrypted_load := fun _ _ _ _ _ => FfiErr (Error "ffi");
  tox_derive_key_from_pass := tox_derive_key_from_pass (example_Library path);
  tox_derive_key_with_salt := tox_derive_key_with_salt (example_Library path);
  tox_get_salt := tox_get_salt (example_Library path);
  tox_pass_key_encrypt := tox_pass_key_encrypt (example_Library path);
  tox_encrypted_key_save := tox_encrypted_key_save (example_Library path);
  tox_pass_key_decrypt := tox_pass_key_decrypt (example_Library path);
  tox_encrypted_key_load := tox_encrypted_key_load (example_Library path);
  tox_is_data_encrypted := tox_is_data_encrypted (example_Library path)
|}.

(** [new ToxEncryptSave(tox)] over it. *)
Definition example_attached_broken : ToxEncryptSave :=
  new_ToxEncryptSave example_broken_load [ArgTox {| handle := Some 1%positive |}].

(** A library on which the length and size queries fail in the ffi layer. *)
Definition example_failing_queries (path : string) : Library := {|
  tox_pass_encryption_extra_length := FfiErr (Error "ffi");
  tox_pass_key_length := FfiErr (Error "ffi");
  tox_pass_salt_length := FfiErr (Error "ffi");
  tox_encrypted_size := fun _ => FfiErr (Error "ffi");
  tox_pass_encrypt := tox_pass_encrypt (example_Library path);
  tox_encrypted_save := tox_encrypted_save (example_Library path);
  tox_pass_decrypt := tox_pass_decrypt (example_Library path);
  tox_encrypted_load := tox_encrypted_load (example_Library path);
  tox_derive_key_from_pass := tox_derive_key_from_pass (example_Library path);
  tox_derive_key_with_salt := tox_derive_key_with_salt (example_Library path);
  tox_get_salt := tox_get_salt (example_Library path);
  tox_pass_key_encrypt := tox_pass_key_encrypt (example_Library path);
  tox_encrypted_key_save := tox_encrypted_key_save (example_Library path);
  tox_pass_key_decrypt := tox_pass_key_decrypt (example_Library path);
  tox_encrypted_key_load := tox_encrypted_key_load (example_Library path);
  tox_is_data_encrypted := tox_is_data_encrypted (example_Library path)
|}.

(** ** Views of the operations, used to state their properties *)



(** The sizes asked of [new Buffer], in order. *)
Definition allocations (log : list Event) : list Z :=
  flat_map (fun ev => match ev with EvAlloc n => [n] | _ => [] end) log.

(** The query an operation makes before it allocates its output buffer, with
    the library's answer on this instance. *)
Definition preliminary_query (this : ToxEncryptSave) (op : Operation)
    : option (string * ffi_result Z) :=
  match op with
  | PassEncrypt _ _ | PassDecrypt _ _ | PassKeyEncrypt _ _ | PassKeyDecrypt _ _ =>
      Some ("tox_pass_encryption_extra_length",
            tox_pass_encryption_extra_length (getLibrary this))
  | DeriveKeyFromPass _ | DeriveKeyWithSalt _ _ =>
      Some ("tox_pass_key_length", tox_pass_key_length (getLibrary this))
  | EncryptedSave _ | EncryptedKeySave _ =>
      Some ("tox_encrypted_size", tox_encrypted_size (getLibrary this) (getHandle this))
  | _ => None
  end.

(** The primitive an operation is named after. *)
Definition main_primitive (op : Operation) : string :=
  match op with
  | GetEncryptionExtraLength => "tox_pass_encryption_extra_length"
  | GetKeyLength => "tox_pass_key_length"
  | GetSaltLength => "tox_pass_salt_length"
  | GetEncryptedSize => "tox_encrypted_size"
  | PassEncrypt _ _ => "tox_pass_encrypt"
  | PassDecrypt _ _ => "tox_pass_decrypt"
  | EncryptedLoad _ _ => "tox_encrypted_load"
  | EncryptedSave _ => "tox_encrypted_save"
  | DeriveKeyFromPass _ => "tox_derive_key_from_pass"
  | DeriveKeyWithSalt _ _ => "tox_derive_key_with_salt"
  | GetSalt _ => "tox_get_salt"
  | PassKeyEncrypt _ _ => "tox_pass_key_encrypt"
  | PassKeyDecrypt _ _ => "tox_pass_key_decrypt"
  | EncryptedKeySave _ => "tox_encrypted_key_save"
  | EncryptedKeyLoad _ _ => "tox_encrypted_key_load"
  | IsDataEncrypted _ => "tox_is_data_encrypted"
  end.

(** Was the primitive the operation is named after entered? *)
Definition entered_main (op : Operation) (log : list Event) : bool :=
  existsb (is_call_of (main_primitive op)) log.

(** Operations whose result is an output buffer. *)
Definition yields_buffer (op : Operation) : bool :=
  match op with
  | PassEncrypt _ _ | PassDecrypt _ _ | EncryptedSave _ | DeriveKeyFromPass _
  | DeriveKeyWithSalt _ _ | GetSalt _ | PassKeyEncrypt _ _ | PassKeyDecrypt _ _
  | EncryptedKeySave _ => true
  | _ => false
  end.

(** The shape of an operation's result: a count, a buffer, nothing, or a
    boolean. *)
Definition result_shape (op : Operation) (res : Value) : bool :=
  match op, res with
  | (GetEncryptionExtraLength | GetKeyLength | GetSaltLength | GetEncryptedSize),
    VNumber _ => true
  | (EncryptedLoad _ _ | EncryptedKeyLoad _ _), VUndefined => true
  | IsDataEncrypted _, VBoolean _ => true
  | _, VBuffer _ => yields_buffer op
  | _, _ => false
  end.

(** An error is never accompanied by a result. *)
Definition error_without_result (log : list Event) : Prop :=
  forall e res, In (EvCallback (Some e) res) log -> res = VUndefined.

(** What can be read off an error without its message: which constructor
    built it, and the diagnostic fields it carries. *)
Inductive ErrorKind := PlainError | OtherClass | NonZeroReturn | ReturnMismatch.

Definition kind_of (e : JsError) : ErrorKind :=
  match e with
  | Error _ => PlainError
  | TypeError _ => OtherClass
  | NonZeroReturnError _ _ => NonZeroReturn
  | ReturnMismatchError _ _ _ => ReturnMismatch
  end.

Record Diagnostics := {
  diag_operation : string;
  diag_returned : Z;
  diag_expected : option Z
}.

Definition diagnostics (e : JsError) : option Diagnostics :=
  match e with
  | Error _ => None
  | TypeError _ => None
  | NonZeroReturnError operation code =>
      Some {| diag_operation := operation; diag_returned := code;
              diag_expected := None |}
  | ReturnMismatchError operation actual expected =>
      Some {| diag_operation := operation; diag_returned := actual;
              diag_expected := Some expected |}
  end.

(** No primitive of the library fails in the ffi layer. *)
Record ffi_reliable (lib : Library) : Prop := {
  reliable_extra_length : forall e, tox_pass_encryption_extra_length lib <> FfiErr e;
  reliable_key_length : forall e, tox_pass_key_length lib <> FfiErr e;
  reliable_salt_length : forall e, tox_pass_salt_length lib <> FfiErr e;
  reliable_encrypted_size : forall h e, tox_encrypted_size lib h <> FfiErr e;
  reliable_pass_encrypt : forall a b c d e, tox_pass_encrypt lib a b c d <> FfiErr e;
  reliable_encrypted_save : forall a b c e, tox_encrypted_save lib a b c <> FfiErr e;
  reliable_pass_decrypt : forall a b c d e, tox_pass_decrypt lib a b c d <> FfiErr e;
  reliable_encrypted_load :
    forall a b c d f e, tox_encrypted_load lib a b c d f <> FfiErr e;
  reliable_derive_key_from_pass :
    forall a b e, tox_derive_key_from_pass lib a b <> FfiErr e;
  reliable_derive_key_with_salt :
    forall a b c e, tox_derive_key_with_salt lib a b c <> FfiErr e;
  reliable_get_salt : forall a e, tox_get_salt lib a <> FfiErr e;
  reliable_pass_key_encrypt : forall a b c e, tox_pass_key_encrypt lib a b c <> FfiErr e;
  reliable_encrypted_key_save :
    forall a b e, tox_encrypted_key_save lib a b <> FfiErr e;
  reliable_pass_key_decrypt : forall a b c e, tox_pass_key_decrypt lib a b c <> FfiErr e;
  reliable_encrypted_key_load :
    forall a b c d e, tox_encrypted_key_load lib a b c d <> FfiErr e;
  reliable_is_data_encrypted : forall a e, tox_is_data_encrypted lib a <> FfiErr e
}.

(** ** Further views of the operations *)

(** The four queries that hand the caller's callback straight to ffi. *)
Definition simple_query (op : Operation) : bool :=
  match op with
  | GetEncryptionExtraLength | GetKeyLength | GetSaltLength | GetEncryptedSize => true
  | _ => false
  end.

(** The argument of [new Buffer] in a two-step operation, from the result
    [n] of its preliminary query. *)
Definition size_rule (op : Operation) (n : Z) : Z :=
  match op with
  | PassEncrypt data _ | PassKeyEncrypt data _ => Buffer_length (toBuffer data) + n
  | PassDecrypt data _ => Buffer_length (toBuffer data) - n
  | PassKeyDecrypt data _ => Buffer_length data - n
  | _ => n
  end.

(** The [int] of a primitive that also writes through a pointer. *)
Definition int_result (r : ffi_result (Z * Buffer)) : ffi_result Z :=
  match r with
  | FfiErr e => FfiErr e
  | FfiRet (res, _) => FfiRet res
  end.

(** For the operations that test their primitive's result against 0: what
    the primitive answers on this instance's library. *)
Definition status_result (this : ToxEncryptSave) (op : Operation)
    : option (ffi_result Z) :=
  match op with
  | PassEncrypt data passphrase =>
      let data := toBuffer data in
      let passphrase := toBuffer passphrase in
      Some (int_result (tox_pass_encrypt (getLibrary this) data (Buffer_length data)
                                         passphrase (Buffer_length passphrase)))
  | EncryptedLoad data passphrase =>
      let data := toBuffer data in
      let passphrase := toBuffer passphrase in
      Some (tox_encrypted_load (getLibrary this) (getHandle this) data
                               (Buffer_length data) passphrase (Buffer_length passphrase))
  | EncryptedSave passphrase =>
      let passphrase := toBuffer passphrase in
      Some (int_result (tox_encrypted_save (getLibrary this) (getHandle this)
                                           passphrase (Buffer_length passphrase)))
  | DeriveKeyFromPass passphrase =>
      let passphrase := toBuffer passphrase in
      Some (int_result (tox_derive_key_from_pass (getLibrary this) passphrase
                                                 (Buffer_length passphrase)))
  | DeriveKeyWithSalt passphrase salt =>
      let passphrase := toBuffer passphrase in
      Some (int_result (tox_derive_key_with_salt (getLibrary this) passphrase
                                                 (Buffer_length passphrase) salt))
  | GetSalt data => Some (int_result (tox_get_salt (getLibrary this) data))
  | PassKeyEncrypt data key =>
      let data := toBuffer data in
      Some (int_result (tox_pass_key_encrypt (getLibrary this) data
                                             (Buffer_length data) key))
  | EncryptedKeySave key =>
      Some (int_result (tox_encrypted_key_save (getLibrary this) (getHandle this) key))
  | EncryptedKeyLoad data key =>
      Some (tox_encrypted_key_load (getLibrary this) (getHandle this) data
                                   (Buffer_length data) key)
  | _ => None
  end.

(** The preliminary query, if the operation has one, did not fail. *)
Definition query_answered (this : ToxEncryptSave) (op : Operation) : Prop :=
  match preliminary_query this op with
  | Some (_, FfiErr _) => False
  | _ => True
  end.

(** A log with the invocations of the caller's callback taken out. *)
Definition without_callbacks (log : list Event) : list Event :=
  filter (fun ev => negb (is_callback ev)) log.

(** What the primitive an operation is named after answers on this
    instance's library, as far as its [int] goes. *)
Definition main_result (this : ToxEncryptSave) (op : Operation) : ffi_result Z :=
  match op with
  | GetEncryptionExtraLength => tox_pass_encryption_extra_length (getLibrary this)
  | GetKeyLength => tox_pass_key_length (getLibrary this)
  | GetSaltLength => tox_pass_salt_length (getLibrary this)
  | GetEncryptedSize => tox_encrypted_size (getLibrary this) (getHandle this)
  | PassDecrypt data passphrase =>
      let data := toBuffer data in
      let passphrase := toBuffer passphrase in
      int_result (tox_pass_decrypt (getLibrary this) data (Buffer_length data)
                                   passphrase (Buffer_length passphrase))
  | PassKeyDecrypt data key =>
      int_result (tox_pass_key_decrypt (getLibrary this) data (Buffer_length data) key)
  | IsDataEncrypted data => tox_is_data_encrypted (getLibrary this) data
  | _ => match status_result this op with
         | Some r => r
         | None => FfiRet 0
         end
  end.


(** The same object with the [sync] option decided otherwise. *)
Definition with_sync (this : ToxEncryptSave) (sync : bool) : ToxEncryptSave :=
  {| _tox := _tox this;
     _libpath := _libpath this;
     _sync := sync;
     _toxencryptsave := _toxencryptsave this |}.

(** The buffer holds the octets the primitive wrote, as far as the buffer
    and the octets written reach.  Nothing is said of the octets beyond. *)
Definition holds_output (outBuffer written : Buffer) : Prop :=
  firstn (List.length written) outBuffer = firstn (List.length outBuffer) written.

(** The octets a primitive wrote, if it returned. *)
Definition written_part (r : ffi_result (Z * Buffer)) : option Buffer :=
  match r with
  | FfiErr _ => None
  | FfiRet (_, written) => Some written
  end.

(** For the operations that yield a buffer: the octets the primitive the
    operation is named after writes on this instance's library. *)
Definition main_written (this : ToxEncryptSave) (op : Operation) : option Buffer :=
  match op with
  | PassEncrypt data passphrase =>
      let data := toBuffer data in
      let passphrase := toBuffer passphrase in
      written_part (tox_pass_encrypt (getLibrary this) data (Buffer_length data)
                                     passphrase (Buffer_length passphrase))
  | PassDecrypt data passphrase =>
      let data := toBuffer data in
      let passphrase := toBuffer passphrase in
      written_part (tox_pass_decrypt (getLibrary this) data (Buffer_length data)
                                     passphrase (Buffer_length passphrase))
  | EncryptedSave passphrase =>
      let passphrase := toBuffer passphrase in
      written_part (tox_encrypted_save (getLibrary this) (getHandle this)
                                       passphrase (Buffer_length passphrase))
  | DeriveKeyFromPass passphrase =>
      let passphrase := toBuffer passphrase in
      written_part (tox_derive_key_from_pass (getLibrary this) passphrase
                                             (Buffer_length passphrase))
  | DeriveKeyWithSalt passphrase salt =>
      let passphrase := toBuffer passphrase in
      written_part (tox_derive_key_with_salt (getLibrary this) passphrase
                                             (Buffer_length passphrase) salt)
  | GetSalt data => written_part (tox_get_salt (getLibrary this) data)
  | PassKeyEncrypt data key =>
      let data := toBuffer data in
      written_part (tox_pass_key_encrypt (getLibrary this) data (Buffer_length data) key)
  | PassKeyDecrypt data key =>
      written_part (tox_pass_key_decrypt (getLibrary this) data (Buffer_length data) key)
  | EncryptedKeySave key =>
      written_part (tox_encrypted_key_save (getLibrary this) (getHandle this) key)
  | _ => None
  end.

(** The error with which ffi refuses [lib.f.async(...)] without a callback. *)
Definition ffi_refusal : JsError := TypeError "Expected a callback function".

(** The error [e] comes from the ffi layer: the primitive the operation is
    named after or its preliminary query failed there with [e], or [e] is
    the refusal of a plain query called with no callback on an object
    without blocking emulation. *)
Definition ffi_raised (this : ToxEncryptSave) (op : Operation) (e : JsError) : Prop :=
  main_result this op = FfiErr e
  \/ (exists query, preliminary_query this op = Some (query, FfiErr e))
  \/ (simple_query op = true /\ _sync this = false /\ e = ffi_refusal).

(** The error [e] reaches the caller of [op] in one of the three ways of
    calling: thrown by the blocking entry point, passed to the handler, or
    thrown by the entry point called with no callback. *)
Definition produces (this : ToxEncryptSave) (op : Operation) (e : JsError) : Prop :=
  outcome (invokeSync this op) = Throw e
  \/ (exists res, In (EvCallback (Some e) res) (events (invoke this op true)))
  \/ outcome (invoke this op false) = Throw e.


(** * node-toxcore, examples/bin/dns-example.js *)

(** [str.split(sep)] for a separator of one character: the pieces between
    the occurrences of [sep], in order. *)
Fixpoint split (sep : Ascii.ascii) (str : string) : list string :=
  match str with
  | EmptyString => [EmptyString]
  | String c rest =>
      if Ascii.eqb c sep then EmptyString :: split sep rest
      else match split sep rest with
           | piece :: pieces => String c piece :: pieces
           | [] => [String c EmptyString]
           end
  end.

(** [getAddressDomain(dnsaddr)]: the part after the ["@"], or [undefined]. *)
Definition getAddressDomain (dnsaddr : string) : option string :=
  match split "@"%char dnsaddr with
  | [_; domain] => Some domain
  | _ => None
  end.

(** A [toxcore.ToxDns] client, as far as the example goes: the key it was
    constructed with. *)
Record ToxDns := { dns_key : option string }.

(** The object literal [clients], before the clients are created. *)
Definition clients_literal : list (string * option string) :=
  [("toxme.io", None)].

(** [clients] after
    [Object.keys(clients).map(... clients[value] = new toxcore.ToxDns({ key: clients[value] }))]. *)
Definition clients : list (string * ToxDns) :=
  map (fun kv => (fst kv, {| dns_key := snd kv |})) clients_literal.

(** What a property read [clients[name]] finds: a client stored under that
    name, or something the object inherits from [Object.prototype]. *)
Inductive Property :=
| OwnClient (client : ToxDns)
| Inherited (name : string).

(** Number of occurrences of a character. *)
Fixpoint count_char (c : Ascii.ascii) (str : string) : nat :=
  match str with
  | EmptyString => 0%nat
  | String c' rest => ((if Ascii.eqb c' c then 1 else 0) + count_char c rest)%nat
  end.

Section DnsExample.

(** The names defined on [Object.prototype] by the runtime. *)
Variable Object_prototype : string -> bool.

(** [clients[name]] *)
Definition clients_get (name : string) : option Property :=
  match find (fun kv => String.eqb (fst kv) name) clients with
  | Some kv => Some (OwnClient (snd kv))
  | None => if Object_prototype name then Some (Inherited name) else None
  end.

(** [getClientForAddress(dnsaddr)] *)
Definition getClientForAddress (dnsaddr : string) : option Property :=
  match getAddressDomain dnsaddr with
  | Some domain =>
      match clients_get domain with
      | Some client => Some client
      | None => None
      end
  | None => None
  end.

End DnsExample.

(** ** Laws of the effect monad *)

Lemma bind_ret_l {A B} (a : A) (f : A -> M B) : bind (ret a) f = f a.
Proof. unfold bind, ret. destruct (f a) as [log o]. reflexivity. Qed.

Lemma bind_ret_r {A} (m : M A) : bind m ret = m.
Proof.
  destruct m as [log [a | e]]; simpl; [rewrite app_nil_r |]; reflexivity.
Qed.

Lemma bind_assoc {A B C} (m : M A) (f : A -> M B) (g : B -> M C) :
  bind (bind m f) g = bind m (fun a => bind (f a) g).
Proof.
  destruct m as [log [a | e]]; simpl; [| reflexivity].
  destruct (f a) as [log1 [b | e]]; simpl; [| reflexivity].
  destruct (g b) as [log2 o]. rewrite app_assoc. reflexivity.
Qed.

Lemma bind_throw {A B} (e : JsError) (f : A -> M B) : bind (throw e) f = throw e.
Proof. reflexivity. Qed.

Lemma events_bind_Return {A B} (m : M A) (f : A -> M B) (a : A) :
  outcome m = Return a -> events (bind m f) = (events m ++ events (f a))%list.
Proof.
  destruct m as [log o]; simpl; intros ->. destruct (f a); reflexivity.
Qed.

(** ** Buffers *)

Lemma Buffer_length_nonneg (b : Buffer) : 0 <= Buffer_length b.
Proof. unfold Buffer_length. lia. Qed.

Lemma Buffer_alloc_length (size : Z) :
  Buffer_length (Buffer_alloc size) = Z.max 0 size.
Proof.
  unfold Buffer_length, Buffer_alloc. rewrite repeat_length. lia.
Qed.

(** A primitive cannot change the length of the buffer it writes to. *)
Lemma Buffer_fill_length (out written : Buffer) :
  Buffer_length (Buffer_fill out written) = Buffer_length out.
Proof.
  unfold Buffer_length, Buffer_fill. f_equal.
  rewrite length_firstn, length_app, length_skipn. lia.
Qed.

Lemma alloc_fill_length (size : Z) (written : Buffer) :
  0 <= size -> Buffer_length (Buffer_fill (Buffer_alloc size) written) = size.
Proof. intros H. rewrite Buffer_fill_length, Buffer_alloc_length. lia. Qed.

(** A primitive that writes as many octets as the buffer holds leaves
    exactly those octets in it. *)
Lemma Buffer_fill_exact (out written : Buffer) :
  Buffer_length written = Buffer_length out -> Buffer_fill out written = written.
Proof.
  unfold Buffer_length, Buffer_fill. intros H. apply Nat2Z.inj in H.
  rewrite H, skipn_all, app_nil_r. rewrite <- H. apply firstn_all.
Qed.

(** Whatever the buffer held, it holds afterwards what the primitive wrote. *)
Lemma Buffer_fill_holds (out written : Buffer) :
  holds_output (Buffer_fill out written) written.
Proof.
  unfold holds_output, Buffer_fill.
  rewrite length_firstn, length_app, length_skipn.
  destruct (Nat.le_gt_cases (List.length written) (List.length out)) as [Hle | Hgt].
  - replace (Nat.min (List.length out)
               (List.length written + (List.length out - List.length written)))
      with (List.length out) by lia.
    rewrite (firstn_all2 written) by exact Hle.
    rewrite firstn_firstn, Nat.min_l by exact Hle.
    rewrite firstn_app, firstn_all, Nat.sub_diag. cbn. apply app_nil_r.
  - replace (Nat.min (List.length out)
               (List.length written + (List.length out - List.length written)))
      with (List.length out) by lia.
    rewrite firstn_firstn, Nat.min_r by lia.
    rewrite firstn_app.
    replace (List.length out - List.length written)%nat with 0%nat by lia.
    cbn. apply app_nil_r.
Qed.

(** ** Proof automation: run a method on an arbitrary library *)

Ltac open_this this :=
  destruct this as [tox_ path_ sync_ lib_]; destruct lib_; cbn [_sync _tox _libpath _toxencryptsave] in *.

Ltac unfold_methods :=
  unfold invoke, invokeSync, pick, number_or_undefined, buffer_or_undefined,
    boolean_or_undefined, undefined,
    passEncrypt, passDecrypt, encryptedLoad, encryptedSave, deriveKeyFromPass,
    deriveKeyWithSalt, getSalt, passKeyEncrypt, passKeyDecrypt, encryptedKeySave,
    encryptedKeyLoad, isDataEncrypted,
    passEncryptSync, passDecryptSync, encryptedLoadSync, encryptedSaveSync,
    deriveKeyFromPassSync, deriveKeyWithSaltSync, getSaltSync, passKeyEncryptSync,
    passKeyDecryptSync, encryptedKeySaveSync, encryptedKeyLoadSync,
    isDataEncryptedSync,
    getEncryptionExtraLength, getKeyLength, getSaltLength, getEncryptedSize,
    getEncryptionExtraLengthSync, getKeyLengthSync, getSaltLengthSync,
    getEncryptedSizeSync,
    _checkHandle, _checkHandleSync, _useSync, hasCallback, getHandle, getLibrary,
    _createNoHandleError, call_with_error, sizeCallback_Callback,
    dataCallback_Callback, errorCallback_Callback, booleanCallback_Callback,
    if_callback, ffi_call, ffi_call_out, ffi_async, ffi_async_out, new_Buffer,
    err_unless_zero, err_unless_length, createNonZeroReturnError, createReturnError,
    size_handler, data_handler, error_handler, boolean_handler, handler,
    emit, throw, ret in *.

Ltac step_match :=
  match goal with
  | |- context [match ?x with _ => _ end] =>
      lazymatch x with
      | context [match _ with _ => _ end] => fail
      | _ => destruct x eqn:?
      end
  end.

Ltac tidy :=
  cbn -[Z.eqb Buffer_alloc Buffer_fill Buffer_length] in *;
  rewrite ?andb_false_r, ?andb_true_r in *.

Ltac run_cases := unfold_methods; tidy; repeat (step_match; tidy).


(** ** The dispatch between the two conventions *)

Lemma useSync_with_callback (this : ToxEncryptSave) {C} (cb : C) :
  _useSync this (Some cb) = false.
Proof. unfold _useSync. cbn. apply andb_false_r. Qed.

Lemma useSync_without_callback (this : ToxEncryptSave) {C} :
  _useSync this (@None C) = _sync this.
Proof. unfold _useSync. cbn. apply andb_true_r. Qed.

(** The constructor turns blocking emulation on when [opts.sync] is not
    given, whatever the shape of the argument list. *)
Lemma sync_default (ffi_Library : string -> Library) (arguments : list CtorArg) :
  (forall o, In (ArgOpts o) arguments -> opt_sync o = None) ->
  _sync (new_ToxEncryptSave ffi_Library arguments) = true.
Proof.
  intros Hopts. unfold new_ToxEncryptSave.
  destruct arguments as [| a [| b rest]]; cbn.
  - reflexivity.
  - destruct a as [| t | o]; cbn; try reflexivity.
    rewrite (Hopts o); [reflexivity | now left].
  - destruct a as [| t | o], b as [| t' | o']; cbn; try reflexivity;
      rewrite (Hopts o'); solve [reflexivity | right; now left].
Qed.

Lemma invoke_handler_returns_undefined (this : ToxEncryptSave) (op : Operation) :
  outcome (invoke this op true) = Return VUndefined.
Proof.
  open_this this. destruct op; run_cases; reflexivity.
Qed.

(** With a handler the [sync] option is not looked at. *)
Lemma invoke_handler_any_sync (this : ToxEncryptSave) (op : Operation) (sync : bool) :
  invoke (with_sync this sync) op true = invoke this op true.
Proof.
  unfold with_sync. open_this this.
  destruct op; unfold_methods; tidy; reflexivity.
Qed.

(** With a handler the entry point does the work of its blocking twin, hands
    the outcome to the handler and answers [undefined]. *)
Lemma invoke_handler_run (this : ToxEncryptSave) (op : Operation) :
  exists err res,
    invoke this op true
    = ((events (invokeSync this op) ++ [EvCallback err res])%list, Return VUndefined)
    /\ match outcome (invokeSync this op) with
       | Return v => err = None /\ res = v
       | Throw e => err = Some e
       end.
Proof.
  open_this this.
  destruct op; run_cases; eexists; eexists;
    (split; [reflexivity |]);
    repeat match goal with
           | H : negb _ = true |- _ => apply negb_true_iff in H
           | H : negb _ = false |- _ => apply negb_false_iff in H
           end;
    first [ split; reflexivity | reflexivity | congruence ].
Qed.

(** C3.  The decision between the two paths.  With a completion handler the
    entry point takes the non-blocking path, whatever the [sync] option: it
    answers [undefined], never throws, performs the library calls and the
    allocation of the operation, and delivers the outcome through the
    handler, invoked once at the end with the value or with the error.
    Without a handler, on an instance with blocking emulation on, it is the
    blocking entry point: same events, same value, same thrown error.
    Blocking emulation is on whenever the constructor is not given
    [opts.sync]. *)
Theorem dispatch_decision (this : ToxEncryptSave) (op : Operation) :
  (forall (C : Type) (cb : C), _useSync this (Some cb) = false)
  /\ (forall sync, invoke (with_sync this sync) op true = invoke this op true)
  /\ (exists err res,
        invoke this op true
        = ((events (invokeSync this op) ++ [EvCallback err res])%list,
           Return VUndefined)
        /\ match outcome (invokeSync this op) with
           | Return v => err = None /\ res = v
           | Throw e => err = Some e
           end)
  /\ (_sync this = true -> invoke this op false = invokeSync this op)
  /\ (forall ffi_Library arguments,
        (forall o, In (ArgOpts o) arguments -> opt_sync o = None) ->
        _sync (new_ToxEncryptSave ffi_Library arguments) = true).
Proof.
  split; [intros C cb; apply useSync_with_callback |].
  split; [intros sync; apply invoke_handler_any_sync |].
  split; [apply invoke_handler_run |].
  split; [| apply sync_default].
  intros Hsync. open_this this. subst sync_.
  destruct op; run_cases; reflexivity.
Qed.

Lemma dispatch_decision_witness :
  _sync example_detached = true
  /\ invoke example_detached (PassEncrypt (IsString "abc") (IsString "pw")) false
     = invokeSync example_detached (PassEncrypt (IsString "abc") (IsString "pw")).
Proof.
  split; [reflexivity |].
  apply (dispatch_decision example_detached
           (PassEncrypt (IsString "abc") (IsString "pw"))).
  reflexivity.
Defined.

(** ** The session handle gate *)

(** With no handle, the raising form throws the no-handle error before
    anything else happens. *)
Lemma no_handle_blocking (this : ToxEncryptSave) (op : Operation) :
  handle_bound op = true -> getHandle this = None ->
  invokeSync this op = ([], Throw _createNoHandleError).
Proof.
  intros Hop Hnone. unfold getHandle in Hnone. open_this this.
  destruct op; try discriminate Hop; unfold_methods; tidy;
    rewrite Hnone; reflexivity.
Qed.

(** With no handle and a handler, the non-throwing form passes the same
    error to the handler and nothing else happens. *)
Lemma no_handle_with_handler (this : ToxEncryptSave) (op : Operation) :
  handle_bound op = true -> getHandle this = None ->
  invoke this op true
  = ([EvCallback (Some _createNoHandleError) VUndefined], Return VUndefined).
Proof.
  intros Hop Hnone. unfold getHandle in Hnone. open_this this.
  destruct op; try discriminate Hop; unfold_methods; tidy;
    rewrite Hnone; reflexivity.
Qed.

(** Without a handler [_checkHandle] answers [true] whether or not there is
    a handle. *)
Lemma checkHandle_without_callback (this : ToxEncryptSave) :
  _checkHandle this (@None errorCallback) = ret true.
Proof. unfold _checkHandle. destruct (getHandle this); reflexivity. Qed.

(** C2.  On [new ToxEncryptSave({ sync: false })], which has no handle,
    [encryptedLoad(data, passphrase)] and [encryptedKeyLoad(data, key)]
    called without a callback pass the gate and enter the primitive with an
    undefined handle; no no-handle error is raised or delivered.  (With a
    callback, or with blocking emulation on, the gate holds:
    [no_handle_with_handler], [no_handle_blocking].) *)
Theorem no_handle_without_callback_reaches_library :
  getHandle example_detached_async = None
  /\ invoke example_detached_async
       (EncryptedLoad (IsString "abc") (IsString "pw")) false
     = ([EvCall "tox_encrypted_load"], Return VUndefined)
  /\ invoke example_detached_async
       (EncryptedKeyLoad (Buffer_of_string "abc") (Buffer_of_string "key")) false
     = ([EvCall "tox_encrypted_key_load"], Return VUndefined).
Proof. repeat split. Qed.

(** ** Decrypting input shorter than the extra length *)

(** Nothing stands between the length query and the allocation: the
    negative difference goes to [new Buffer] and the primitive is entered. *)
Lemma passDecryptSync_short_input (this : ToxEncryptSave)
    (data passphrase : BufferOrString) (extraLength : Z) :
  tox_pass_encryption_extra_length (getLibrary this) = FfiRet extraLength ->
  events (passDecryptSync this data passphrase)
  = [EvCall "tox_pass_encryption_extra_length";
     EvAlloc (Buffer_length (toBuffer data) - extraLength);
     EvCall "tox_pass_decrypt"].
Proof.
  intros Hextra. open_this this. cbn in Hextra. subst.
  run_cases; reflexivity.
Qed.

Lemma passKeyDecryptSync_short_input (this : ToxEncryptSave)
    (data key : Buffer) (extraLength : Z) :
  tox_pass_encryption_extra_length (getLibrary this) = FfiRet extraLength ->
  events (passKeyDecryptSync this data key)
  = [EvCall "tox_pass_encryption_extra_length";
     EvAlloc (Buffer_length data - extraLength);
     EvCall "tox_pass_key_decrypt"].
Proof.
  intros Hextra. open_this this. cbn in Hextra. subst.
  run_cases; reflexivity.
Qed.

(** C1.  Three octets of input against an extra length of 80: each of the
    four decrypt entry points asks for [new Buffer(-77)], enters the decrypt
    primitive with the resulting empty buffer and reports what the primitive
    returned as a return mismatch against length 0.  No check of the input
    length precedes the allocation. *)
Theorem decrypt_short_input_not_rejected :
  invokeSync example_detached (PassDecrypt (IsString "abc") (IsString "pw"))
  = ([EvCall "tox_pass_encryption_extra_length"; EvAlloc (-77);
      EvCall "tox_pass_decrypt"],
     Throw (ReturnMismatchError "tox_pass_decrypt" (-1) 0))
  /\ invoke example_detached (PassDecrypt (IsString "abc") (IsString "pw")) true
  = ([EvCall "tox_pass_encryption_extra_length"; EvAlloc (-77);
      EvCall "tox_pass_decrypt";
      EvCallback (Some (ReturnMismatchError "tox_pass_decrypt" (-1) 0)) (VBuffer [])],
     Return VUndefined)
  /\ invokeSync example_detached
       (PassKeyDecrypt (Buffer_of_string "abc") (Buffer_of_string "key"))
  = ([EvCall "tox_pass_encryption_extra_length"; EvAlloc (-77);
      EvCall "tox_pass_key_decrypt"],
     Throw (ReturnMismatchError "tox_pass_key_decrypt" (-1) 0))
  /\ invoke example_detached
       (PassKeyDecrypt (Buffer_of_string "abc") (Buffer_of_string "key")) true
  = ([EvCall "tox_pass_encryption_extra_length"; EvAlloc (-77);
      EvCall "tox_pass_key_decrypt";
      EvCallback (Some (ReturnMismatchError "tox_pass_key_decrypt" (-1) 0)) (VBuffer [])],
     Return VUndefined).
Proof. repeat split. Qed.

(** ** Buffer sizing of the encrypt and decrypt operations *)






(** ** Salt extraction *)



(** ** The encrypted-data predicate *)



(** ** Operations in two steps *)

(** C10.  For each of the eight two-step operations called with a handler
    (on an instance with a handle where the operation needs one): if the
    preliminary query fails with [e], the query is all that is asked of the
    library, the handler is invoked once, with [e] and nothing else, and no
    buffer is allocated. *)
Theorem preliminary_failure_stops (this : ToxEncryptSave) (op : Operation)
    (query : string) (e : JsError) :
  preliminary_query this op = Some (query, FfiErr e) ->
  (handle_bound op = true -> getHandle this <> None) ->
  invoke this op true
  = ([EvCall query; EvCallback (Some e) VUndefined], Return VUndefined)
  /\ entered_main op (events (invoke this op true)) = false.
Proof.
  intros Hq Hh. unfold getHandle in *. open_this this.
  destruct op; try discriminate Hq; cbn in Hq; injection Hq as <- Hq;
    unfold entered_main; unfold_methods; tidy.
  all: try (destruct tox_ as [[[h |]] |]; tidy;
            try (exfalso; apply Hh; reflexivity)).
  all: rewrite Hq; tidy; split; reflexivity.
Qed.

Lemma preliminary_failure_stops_witness :
  invoke (new_ToxEncryptSave example_failing_queries
            [ArgTox {| handle := Some 1%positive |}])
         (EncryptedSave (IsString "pw")) true
  = ([EvCall "tox_encrypted_size"; EvCallback (Some (Error "ffi")) VUndefined],
     Return VUndefined).
Proof.
  refine (proj1 (preliminary_failure_stops
                   (new_ToxEncryptSave example_failing_queries
                      [ArgTox {| handle := Some 1%positive |}])
                   (EncryptedSave (IsString "pw"))
                   "tox_encrypted_size" (Error "ffi") eq_refl _)).
  intros _. discriminate.
Defined.

(** ** What the completion handler receives *)

(** C6, as stated, fails: [passEncrypt('abc', '', callback)] over the example
    library, whose [tox_pass_encrypt] answers -1 to an empty passphrase.
    The handler receives the [NonZeroReturnError] together with the 83-octet
    output buffer. *)
Lemma handler_error_with_buffer :
  callbacks (events (invoke example_detached
                       (PassEncrypt (IsString "abc") (IsString "")) true))
  = [EvCallback (Some (NonZeroReturnError "tox_pass_encrypt" (-1)))
                (VBuffer (Buffer_alloc 83))]
  /\ ~ error_without_result
         (events (invoke example_detached
                    (PassEncrypt (IsString "abc") (IsString "")) true)).
Proof.
  split; [reflexivity |].
  intros H.
  specialize (H (NonZeroReturnError "tox_pass_encrypt" (-1))
                (VBuffer (Buffer_alloc 83))).
  assert (Hin : VBuffer (Buffer_alloc 83) = VUndefined);
    [apply H; vm_compute; auto 10 | discriminate Hin].
Qed.

(** C6, amended.  Called with a handler, every operation does the work of
    its blocking twin and then invokes the handler, exactly once.  If the
    twin returns, the handler receives no error and the value the twin
    returns, which has the shape of the operation's result.  If the twin
    throws, the handler receives the error the twin throws; the second
    argument is then undefined when the operation yields no buffer or failed
    before entering its main primitive (no handle, failed length or size
    query), and is the output buffer when the main primitive of a
    buffer-yielding operation was entered: the one buffer allocated, of the
    size asked for (empty if that is negative), holding what the primitive
    wrote if it returned. *)
Theorem handler_invoked_once (this : ToxEncryptSave) (op : Operation) :
  exists err res,
    events (invoke this op true)
    = (events (invokeSync this op) ++ [EvCallback err res])%list
    /\ callbacks (events (invoke this op true)) = [EvCallback err res]
    /\ (err = None ->
          outcome (invokeSync this op) = Return res /\ result_shape op res = true)
    /\ (forall e, err = Some e ->
          outcome (invokeSync this op) = Throw e
          /\ ((res = VUndefined
               /\ (yields_buffer op && entered_main op (events (invoke this op true))
                   = false)%bool)
              \/ (exists outBuffer size,
                    res = VBuffer outBuffer
                    /\ yields_buffer op = true
                    /\ entered_main op (events (invoke this op true)) = true
                    /\ allocations (events (invoke this op true)) = [size]
                    /\ Buffer_length outBuffer = Z.max 0 size
                    /\ (forall written,
                          main_written this op = Some written ->
                          holds_output outBuffer written)))).
Proof.
  open_this this. unfold entered_main.
  destruct op; run_cases; eexists; eexists;
    (split; [reflexivity |]); (split; [reflexivity |]);
    repeat match goal with
           | H : negb _ = true |- _ => apply negb_true_iff in H
           | H : negb _ = false |- _ => apply negb_false_iff in H
           end;
    try congruence;
    (split;
     [ intros Herr; first [discriminate Herr | split; reflexivity]
     | intros e' Herr; first [discriminate Herr | injection Herr as <-];
       (split; [reflexivity |]);
       first [ left; split; reflexivity
             | right; eexists; eexists;
               (split; [reflexivity |]); (split; [reflexivity |]);
               (split; [reflexivity |]); (split; [reflexivity |]);
               split;
               [ first [ rewrite Buffer_fill_length; apply Buffer_alloc_length
                       | apply Buffer_alloc_length ]
               | intros written Hw; first [discriminate Hw | injection Hw as <-];
                 apply Buffer_fill_holds ] ] ]).
Qed.

Lemma handler_invoked_once_witness :
  exists err res,
    callbacks (events (invoke example_attached (EncryptedSave (IsString "pw")) true))
    = [EvCallback err res]
    /\ (err = None ->
          outcome (invokeSync example_attached (EncryptedSave (IsString "pw")))
          = Return res).
Proof.
  destruct (handler_invoked_once example_attached (EncryptedSave (IsString "pw")))
    as (err & res & _ & Hcb & Hok & _).
  exists err, res. split; [exact Hcb |].
  intros Herr. exact (proj1 (Hok Herr)).
Defined.

(** ** Telling the errors apart *)

Lemma example_Library_reliable (path : string) : ffi_reliable (example_Library path).
Proof.
  constructor; cbn; intros; try discriminate;
    match goal with |- context [if ?c then _ else _] => destruct c end;
    discriminate.
Qed.

(** C7, as stated, fails: not every error an operation produces is one of
    the three kinds.  On [new ToxEncryptSave({ sync: false })], over a
    library that never fails in the ffi layer, [getKeyLength()] called
    without a callback throws the [TypeError] with which ffi refuses the
    call. *)
Lemma error_outside_the_three_kinds :
  ffi_reliable (getLibrary example_detached_async)
  /\ invoke example_detached_async GetKeyLength false
     = ([], Throw (TypeError "Expected a callback function"))
  /\ produces example_detached_async GetKeyLength
              (TypeError "Expected a callback function")
  /\ ~ (forall this op e,
          produces this op e ->
          kind_of e = PlainError \/ kind_of e = NonZeroReturn
          \/ kind_of e = ReturnMismatch).
Proof.
  assert (Hp : produces example_detached_async GetKeyLength
                 (TypeError "Expected a callback function"))
    by (right; right; reflexivity).
  split; [apply example_Library_reliable |].
  split; [reflexivity |].
  split; [exact Hp |].
  intros H. destruct (H _ _ _ Hp) as [Hk | [Hk | Hk]]; discriminate Hk.
Qed.

(** An error that reaches the caller, in any of the three ways of calling,
    was raised by the ffi layer or built by the wrapper in one of three
    ways. *)
Lemma produced_error_forms (this : ToxEncryptSave) (op : Operation) (e : JsError) :
  produces this op e ->
  ffi_raised this op e
  \/ (e = _createNoHandleError /\ handle_bound op = true /\ getHandle this = None)
  \/ (exists code,
        code <> 0 /\ main_result this op = FfiRet code
        /\ e = NonZeroReturnError (main_primitive op) code)
  \/ (exists actual expected,
        actual <> expected /\ main_result this op = FfiRet actual
        /\ e = ReturnMismatchError (main_primitive op) actual expected).
Proof.
  intros Hprod. unfold produces, ffi_raised, ffi_refusal, getHandle in *.
  revert Hprod. open_this this.
  destruct op; run_cases;
    (intros [H | [[res' H] | H]];
     [ try discriminate H; try injection H as <-
     | cbn in H;
       repeat match goal with
              | H : _ \/ _ |- _ => destruct H as [H | H]
              | H : False |- _ => contradiction
              | H : EvCall _ = EvCallback _ _ |- _ => discriminate H
              | H : EvAlloc _ = EvCallback _ _ |- _ => discriminate H
              | H : EvCallback None _ = EvCallback (Some _) _ |- _ => discriminate H
              | H : EvCallback (Some _) _ = EvCallback (Some _) _ |- _ =>
                  injection H as <- <-
              end
     | try discriminate H; try injection H as <- ]).
  all: repeat match goal with
              | H : negb _ = true |- _ => apply negb_true_iff in H
              | H : negb _ = false |- _ => apply negb_false_iff in H
              end.
  all: try congruence.
  all: first
         [ left; left; reflexivity
         | left; right; left; eexists; reflexivity
         | left; right; right; repeat split; reflexivity
         | right; left; repeat split; reflexivity
         | right; right; left; eexists;
           split; [apply Z.eqb_neq; eassumption | split; reflexivity]
         | right; right; right; eexists; eexists;
           split; [apply Z.eqb_neq; eassumption | split; reflexivity] ].
Qed.

(** C7, amended.  Every error an operation produces, blocking, through the
    handler or called with no callback, is either raised by the ffi layer
    and passed on as it is, or built by the wrapper, and then of one of
    three kinds that are told apart, and whose diagnostic fields are read,
    without any message: the plain [Error], which is the no-handle error, has
    no fields and comes from a handle-bound operation on an object without a
    handle; [NonZeroReturnError], with the name of the operation's primitive
    and the non-zero code it returned; [ReturnMismatchError], with that name,
    the value the primitive returned and the differing length expected.  So
    where the ffi layer raises no plain [Error], a plain [Error] is the
    no-handle error. *)
Theorem error_kinds (this : ToxEncryptSave) (op : Operation) (e : JsError) :
  produces this op e ->
  (ffi_raised this op e
   \/ match kind_of e with
      | PlainError =>
          e = Error "No handle" /\ diagnostics e = None
          /\ handle_bound op = true /\ getHandle this = None
      | OtherClass => False
      | NonZeroReturn =>
          exists code,
            code <> 0 /\ main_result this op = FfiRet code
            /\ diagnostics e = Some {| diag_operation := main_primitive op;
                                       diag_returned := code;
                                       diag_expected := None |}
      | ReturnMismatch =>
          exists actual expected,
            actual <> expected /\ main_result this op = FfiRet actual
            /\ diagnostics e = Some {| diag_operation := main_primitive op;
                                       diag_returned := actual;
                                       diag_expected := Some expected |}
      end)
  /\ ((forall e', ffi_raised this op e' -> kind_of e' <> PlainError) ->
      kind_of e = PlainError ->
      e = Error "No handle" /\ handle_bound op = true /\ getHandle this = None).
Proof.
  intros Hprod.
  destruct (produced_error_forms this op e Hprod)
    as [Hffi | [(-> & Hb & Hh) | [(code & Hc & Hm & ->)
                                 | (actual & expected & Hne & Hm & ->)]]].
  - split; [left; exact Hffi |].
    intros Hother Hk. exfalso. exact (Hother e Hffi Hk).
  - split; [right; cbn; repeat split; assumption |].
    intros _ _. repeat split; assumption.
  - split; [right; cbn; exists code; repeat split; assumption |].
    intros _ Hk. discriminate Hk.
  - split; [right; cbn; exists actual, expected; repeat split; assumption |].
    intros _ Hk. discriminate Hk.
Qed.

Lemma error_kinds_witness :
  produces example_detached (EncryptedLoad (IsString "abc") (IsString "pw"))
           (Error "No handle")
  /\ handle_bound (EncryptedLoad (IsString "abc") (IsString "pw")) = true
  /\ getHandle example_detached = None.
Proof.
  assert (Hprod : produces example_detached
                    (EncryptedLoad (IsString "abc") (IsString "pw"))
                    (Error "No handle")) by (left; reflexivity).
  split; [exact Hprod |].
  destruct (error_kinds example_detached
              (EncryptedLoad (IsString "abc") (IsString "pw"))
              (Error "No handle") Hprod) as [_ H].
  refine (proj2 (H _ eq_refl)).
  intros e' [Hm | [[query Hq] | [Hs _]]]; discriminate.
Defined.


(** ** The two conventions agree *)

(** X1.  Called with a handler, an operation does what its blocking twin does
    and then invokes the handler once: with the twin's return value and no
    error if the twin returns, with the twin's thrown error if it throws.
    The blocking twin never invokes a callback. *)
Theorem conventions_agree (this : ToxEncryptSave) (op : Operation) :
  callbacks (events (invokeSync this op)) = []
  /\ exists err res,
       events (invoke this op true)
       = (events (invokeSync this op) ++ [EvCallback err res])%list
       /\ match outcome (invokeSync this op) with
          | Return v => err = None /\ res = v
          | Throw e => err = Some e
          end.
Proof.
  open_this this.
  destruct op; run_cases; (split; [reflexivity |]); eexists; eexists;
    (split; [reflexivity |]);
    repeat match goal with
           | H : negb _ = true |- _ => apply negb_true_iff in H
           | H : negb _ = false |- _ => apply negb_false_iff in H
           end;
    first [ split; reflexivity | reflexivity | congruence ].
Qed.

Lemma conventions_agree_witness :
  callbacks (events (invokeSync example_attached (EncryptedSave (IsString "pw")))) = [].
Proof.
  exact (proj1 (conventions_agree example_attached (EncryptedSave (IsString "pw")))).
Defined.

(** ** Calls without a callback on an instance without blocking emulation *)

(** X2.  On an instance built with [sync: false], an operation other than the
    four plain queries, called without a callback (and with a handle if it
    is handle-bound), returns [undefined] without throwing and does what it
    does with a handler except for invoking one: the same primitives are
    entered and the same buffer is allocated. *)
Theorem fire_and_forget (this : ToxEncryptSave) (op : Operation) :
  _sync this = false ->
  simple_query op = false ->
  (handle_bound op = true -> getHandle this <> None) ->
  invoke this op false
  = (without_callbacks (events (invoke this op true)), Return VUndefined).
Proof.
  intros Hsync Hq Hh. unfold getHandle in Hh. open_this this. subst sync_.
  destruct op; try discriminate Hq; unfold without_callbacks; unfold_methods; tidy.
  all: try (destruct tox_ as [[[h |]] |]; tidy;
            try (exfalso; apply Hh; reflexivity)).
  all: repeat (step_match; tidy); reflexivity.
Qed.

Lemma fire_and_forget_witness :
  invoke example_detached_async (PassEncrypt (IsString "abc") (IsString "pw")) false
  = (without_callbacks
       (events (invoke example_detached_async
                  (PassEncrypt (IsString "abc") (IsString "pw")) true)),
     Return VUndefined).
Proof.
  apply (fire_and_forget example_detached_async
           (PassEncrypt (IsString "abc") (IsString "pw"))).
  - reflexivity.
  - reflexivity.
  - intros H. discriminate H.
Defined.

(** ** Order of the steps and size of the buffer *)

(** X3.  In each of the eight two-step operations whose preliminary query
    answers [n] (on an instance with a handle where one is needed), the
    blocking call does three things in this order: the query, one
    [new Buffer] whose argument is the operation's size rule applied to [n],
    the main primitive.  A buffer it returns has that size, or is empty if
    the size is negative.  Called with a handler the operation does the same
    three things and then hands the handler a buffer of that length. *)
Theorem two_step_order (this : ToxEncryptSave) (op : Operation)
    (query : string) (n : Z) :
  preliminary_query this op = Some (query, FfiRet n) ->
  (handle_bound op = true -> getHandle this <> None) ->
  let steps := [EvCall query; EvAlloc (size_rule op n); EvCall (main_primitive op)] in
  events (invokeSync this op) = steps
  /\ (forall v, outcome (invokeSync this op) = Return v ->
        exists out, v = VBuffer out
                    /\ Buffer_length out = Z.max 0 (size_rule op n))
  /\ (exists err out,
        events (invoke this op true) = (steps ++ [EvCallback err (VBuffer out)])%list
        /\ Buffer_length out = Z.max 0 (size_rule op n)).
Proof.
  intros Hq Hh steps. subst steps. unfold getHandle in *. open_this this.
  destruct op; try discriminate Hq; cbn in Hq; injection Hq as <- Hq;
    unfold_methods; tidy.
  all: try (destruct tox_ as [[[h |]] |]; tidy;
            try (exfalso; apply Hh; reflexivity)).
  all: rewrite Hq; tidy; repeat (step_match; tidy).
  all: split; [reflexivity |].
  all: split;
    [ intros v Hv;
      first [ discriminate Hv
            | injection Hv as <-; eexists; split; [reflexivity |];
              rewrite Buffer_fill_length; apply Buffer_alloc_length ]
    | eexists; eexists; split; [reflexivity |];
      first [ rewrite Buffer_fill_length; apply Buffer_alloc_length
            | apply Buffer_alloc_length ] ].
Qed.

Lemma two_step_order_witness :
  events (invokeSync example_attached (DeriveKeyFromPass (IsString "pw")))
  = [EvCall "tox_pass_key_length"; EvAlloc 32; EvCall "tox_derive_key_from_pass"].
Proof.
  refine (proj1 (two_step_order example_attached (DeriveKeyFromPass (IsString "pw"))
                   "tox_pass_key_length" 32 eq_refl _)).
  intros H. discriminate H.
Defined.

(** ** Classification of a status code *)

(** X4.  For the nine operations that test their primitive's result against 0,
    once the primitive is reached (the preliminary query answered, a handle
    is there if needed) and returns [res]: if [res] is 0 the blocking call
    returns and the handler receives no error; otherwise the blocking call
    throws, and the handler receives, [NonZeroReturnError] with the
    primitive's name and [res]. *)
Theorem status_classification (this : ToxEncryptSave) (op : Operation) (res : Z) :
  status_result this op = Some (FfiRet res) ->
  query_answered this op ->
  (handle_bound op = true -> getHandle this <> None) ->
  (res = 0 ->
     (exists v, outcome (invokeSync this op) = Return v)
     /\ exists r, callbacks (events (invoke this op true)) = [EvCallback None r])
  /\ (res <> 0 ->
        outcome (invokeSync this op)
        = Throw (NonZeroReturnError (main_primitive op) res)
        /\ exists r,
             callbacks (events (invoke this op true))
             = [EvCallback (Some (NonZeroReturnError (main_primitive op) res)) r]).
Proof.
  intros Hs Hq Hh. unfold query_answered, getHandle in *. open_this this.
  destruct op; try discriminate Hs; cbn in Hs, Hq; injection Hs as Hs;
    unfold_methods; tidy.
  all: try (destruct tox_ as [[[h |]] |]; tidy;
            try (exfalso; apply Hh; reflexivity)).
  all: revert Hs Hq; repeat (step_match; tidy); intros Hs Hq;
       try contradiction; try discriminate Hs; try injection Hs as ->.
  all: repeat match goal with
              | H : negb _ = true |- _ => apply negb_true_iff in H
              | H : negb _ = false |- _ => apply negb_false_iff in H
              | H : (_ =? 0) = true |- _ => apply Z.eqb_eq in H
              | H : (_ =? 0) = false |- _ => apply Z.eqb_neq in H
              end.
  all: try congruence.
  all: split; intros Hres; try contradiction;
       split; first [ eexists; reflexivity | reflexivity ].
Qed.

Lemma status_classification_witness :
  outcome (invokeSync example_detached (PassEncrypt (IsString "abc") (IsString "")))
  = Throw (NonZeroReturnError "tox_pass_encrypt" (-1)).
Proof.
  destruct (status_classification example_detached
              (PassEncrypt (IsString "abc") (IsString "")) (-1) eq_refl I)
    as [_ H].
  - intros H. discriminate H.
  - destruct H as [H _]; [intros Hz; discriminate Hz | exact H].
Defined.


(** ** Operations that need no handle *)

(** X7.  An operation that is not handle-bound does not look at the Tox
    instance: two objects with the same library and the same [sync] option
    behave alike on it, in both conventions, whatever their Tox instance and
    library path. *)
Theorem unbound_operations_ignore_tox (this this' : ToxEncryptSave)
    (op : Operation) (with_handler : bool) :
  _sync this = _sync this' ->
  _toxencryptsave this = _toxencryptsave this' ->
  handle_bound op = false ->
  invoke this op with_handler = invoke this' op with_handler
  /\ invokeSync this op = invokeSync this' op.
Proof.
  intros Hsync Hlib Hop.
  destruct this as [tox1 path1 sync1 lib1], this' as [tox2 path2 sync2 lib2].
  cbn in Hsync, Hlib. subst sync2 lib2.
  destruct op; try discriminate Hop; split; reflexivity.
Qed.

Lemma unbound_operations_ignore_tox_witness :
  invokeSync example_detached (PassEncrypt (IsString "abc") (IsString "pw"))
  = invokeSync example_attached (PassEncrypt (IsString "abc") (IsString "pw")).
Proof.
  exact (proj2 (unbound_operations_ignore_tox example_detached example_attached
                  (PassEncrypt (IsString "abc") (IsString "pw")) true
                  eq_refl eq_refl eq_refl)).
Defined.

(** ** Where the handle gate holds *)

(** X6.  A handle-bound operation on an object without a handle: the blocking
    call throws [Error('No handle')]; so does the call without a callback
    when blocking emulation is on; the call with a handler passes that same
    error to the handler.  In all three no primitive is entered and no
    buffer is allocated. *)
Theorem handle_gate (this : ToxEncryptSave) (op : Operation) :
  handle_bound op = true ->
  getHandle this = None ->
  invokeSync this op = ([], Throw (Error "No handle"))
  /\ (_sync this = true -> invoke this op false = ([], Throw (Error "No handle")))
  /\ invoke this op true
     = ([EvCallback (Some (Error "No handle")) VUndefined], Return VUndefined).
Proof.
  intros Hop Hnone.
  split; [apply (no_handle_blocking this op Hop Hnone) |].
  split; [| apply (no_handle_with_handler this op Hop Hnone)].
  intros Hsync. unfold getHandle in Hnone. open_this this. subst sync_.
  destruct op; try discriminate Hop; unfold_methods; tidy;
    rewrite Hnone; reflexivity.
Qed.

Lemma handle_gate_witness :
  invokeSync example_detached (EncryptedKeySave (Buffer_of_string "key"))
  = ([], Throw (Error "No handle")).
Proof.
  exact (proj1 (handle_gate example_detached (EncryptedKeySave (Buffer_of_string "key"))
                  eq_refl eq_refl)).
Defined.

(** ** The constructor *)

(** X8.  A lone argument that is not a Tox instance is taken as the options; the
    object has a handle exactly when its first argument is a Tox instance
    that has one; [opts.sync], when given, decides blocking emulation; the
    library is loaded from [opts.path], or from ["libtoxencryptsave"] when
    the path is missing or empty. *)
Theorem constructor_arguments (ffi_Library : string -> Library) :
  (forall o, new_ToxEncryptSave ffi_Library [ArgOpts o]
             = new_ToxEncryptSave ffi_Library [ArgUndefined; ArgOpts o])
  /\ (forall t rest,
        getHandle (new_ToxEncryptSave ffi_Library (ArgTox t :: rest)) = handle t)
  /\ (forall arguments,
        instanceof_Tox (nth 0 arguments ArgUndefined) = false ->
        getHandle (new_ToxEncryptSave ffi_Library arguments) = None)
  /\ (forall o tox b,
        opt_sync o = Some b ->
        _sync (new_ToxEncryptSave ffi_Library [ArgOpts o]) = b
        /\ _sync (new_ToxEncryptSave ffi_Library [tox; ArgOpts o]) = b)
  /\ (forall o tox,
        let loaded := match opt_path o with
                      | Some p => if String.eqb p "" then "libtoxencryptsave" else p
                      | None => "libtoxencryptsave"
                      end in
        getLibrary (new_ToxEncryptSave ffi_Library [ArgOpts o]) = ffi_Library loaded
        /\ getLibrary (new_ToxEncryptSave ffi_Library [tox; ArgOpts o])
           = ffi_Library loaded)
  /\ (forall t, getLibrary (new_ToxEncryptSave ffi_Library [ArgTox t])
                = ffi_Library "libtoxencryptsave").
Proof.
  split; [reflexivity |].
  split; [intros t [| a rest]; reflexivity |].
  split.
  { intros [| a [| b rest]] Ha; cbn in Ha |- *; try reflexivity;
      destruct a; try discriminate Ha; reflexivity. }
  split.
  { intros o tox b Hb. unfold new_ToxEncryptSave; cbn.
    rewrite Hb. destruct b; split; destruct tox; reflexivity. }
  split; [| reflexivity].
  intros o tox loaded. subst loaded. split; [reflexivity |].
  destruct tox; reflexivity.
Qed.

Lemma constructor_arguments_witness :
  _sync (new_ToxEncryptSave example_Library
           [ArgOpts {| opt_path := None; opt_sync := Some false |}]) = false.
Proof.
  destruct (constructor_arguments example_Library) as (_ & _ & _ & H & _).
  exact (proj1 (H {| opt_path := None; opt_sync := Some false |}
                  ArgUndefined false eq_refl)).
Defined.

(** ** Encrypting, then decrypting *)

Lemma passEncryptSync_result (this : ToxEncryptSave)
    (data passphrase : BufferOrString) (extraLength : Z) (encrypted : Buffer) :
  tox_pass_encryption_extra_length (getLibrary this) = FfiRet extraLength ->
  0 <= extraLength ->
  outcome (passEncryptSync this data passphrase) = Return encrypted ->
  Buffer_length encrypted = Buffer_length (toBuffer data) + extraLength.
Proof.
  intros Hextra Hpos. pose proof (Buffer_length_nonneg (toBuffer data)) as Hlen.
  open_this this. cbn in Hextra. subst.
  run_cases; intros H; try discriminate H; injection H as <-.
  apply alloc_fill_length. lia.
Qed.

Lemma passKeyEncryptSync_result (this : ToxEncryptSave)
    (data : BufferOrString) (key : Buffer) (extraLength : Z) (encrypted : Buffer) :
  tox_pass_encryption_extra_length (getLibrary this) = FfiRet extraLength ->
  0 <= extraLength ->
  outcome (passKeyEncryptSync this data key) = Return encrypted ->
  Buffer_length encrypted = Buffer_length (toBuffer data) + extraLength.
Proof.
  intros Hextra Hpos. pose proof (Buffer_length_nonneg (toBuffer data)) as Hlen.
  open_this this. cbn in Hextra. subst.
  run_cases; intros H; try discriminate H; injection H as <-.
  apply alloc_fill_length. lia.
Qed.

(** X9.  The sizes invert: decrypting what an encrypt call returned, with any
    passphrase or key, allocates a buffer of exactly the length of the data
    that was encrypted. *)
Theorem decrypt_allocates_plaintext_length (this : ToxEncryptSave)
    (data passphrase passphrase' : BufferOrString) (key key' : Buffer)
    (extraLength : Z) :
  tox_pass_encryption_extra_length (getLibrary this) = FfiRet extraLength ->
  0 <= extraLength ->
  (forall encrypted,
     outcome (passEncryptSync this data passphrase) = Return encrypted ->
     allocations (events (passDecryptSync this (IsBuffer encrypted) passphrase'))
     = [Buffer_length (toBuffer data)])
  /\ (forall encrypted,
        outcome (passKeyEncryptSync this data key) = Return encrypted ->
        allocations (events (passKeyDecryptSync this encrypted key'))
        = [Buffer_length (toBuffer data)]).
Proof.
  intros Hextra Hpos. split; intros encrypted Henc.
  - pose proof (passEncryptSync_result this data passphrase extraLength encrypted
                  Hextra Hpos Henc) as Hlen.
    rewrite (passDecryptSync_short_input this (IsBuffer encrypted) passphrase'
               extraLength Hextra).
    cbn. f_equal. lia.
  - pose proof (passKeyEncryptSync_result this data key extraLength encrypted
                  Hextra Hpos Henc) as Hlen.
    rewrite (passKeyDecryptSync_short_input this encrypted key' extraLength Hextra).
    cbn. f_equal. lia.
Qed.

Lemma decrypt_allocates_plaintext_length_witness :
  allocations
    (events (passDecryptSync example_detached
               (IsBuffer (repeat x2a 80 ++ Buffer_of_string "abc")%list)
               (IsString "other")))
  = [3].
Proof.
  destruct (decrypt_allocates_plaintext_length example_detached
              (IsString "abc") (IsString "pw") (IsString "other") [] [] 80
              eq_refl ltac:(lia)) as [H _].
  exact (H (repeat x2a 80 ++ Buffer_of_string "abc")%list eq_refl).
Defined.

(** X10.  The wrapper carries the library's round trip: if an encrypt call
    returned [encrypted] and the library's decrypt primitive, given
    [encrypted] and the same passphrase (or key), writes the data back and
    returns its length, then the decrypt call returns exactly the data,
    neither padded nor cut. *)
Theorem round_trip_through_library (this : ToxEncryptSave)
    (data passphrase : BufferOrString) (key : Buffer) (extraLength : Z) :
  tox_pass_encryption_extra_length (getLibrary this) = FfiRet extraLength ->
  0 <= extraLength ->
  (forall encrypted,
     outcome (passEncryptSync this data passphrase) = Return encrypted ->
     tox_pass_decrypt (getLibrary this) encrypted (Buffer_length encrypted)
                      (toBuffer passphrase) (Buffer_length (toBuffer passphrase))
     = FfiRet (Buffer_length (toBuffer data), toBuffer data) ->
     outcome (passDecryptSync this (IsBuffer encrypted) passphrase)
     = Return (toBuffer data))
  /\ (forall encrypted,
        outcome (passKeyEncryptSync this data key) = Return encrypted ->
        tox_pass_key_decrypt (getLibrary this) encrypted (Buffer_length encrypted) key
        = FfiRet (Buffer_length (toBuffer data), toBuffer data) ->
        outcome (passKeyDecryptSync this encrypted key) = Return (toBuffer data)).
Proof.
  intros Hextra Hpos.
  pose proof (Buffer_length_nonneg (toBuffer data)) as Hnn.
  split; intros encrypted Henc Hdec.
  - pose proof (passEncryptSync_result this data passphrase extraLength encrypted
                  Hextra Hpos Henc) as Hlen.
    clear Henc. open_this this. cbn in Hextra, Hdec. subst.
    unfold_methods; tidy. rewrite Hdec; tidy.
    replace (Buffer_length encrypted - extraLength)
      with (Buffer_length (toBuffer data)) by lia.
    rewrite Buffer_fill_exact by (rewrite Buffer_alloc_length; lia).
    rewrite Z.eqb_refl. reflexivity.
  - pose proof (passKeyEncryptSync_result this data key extraLength encrypted
                  Hextra Hpos Henc) as Hlen.
    clear Henc. open_this this. cbn in Hextra, Hdec. subst.
    unfold_methods; tidy. rewrite Hdec; tidy.
    replace (Buffer_length encrypted - extraLength)
      with (Buffer_length (toBuffer data)) by lia.
    rewrite Buffer_fill_exact by (rewrite Buffer_alloc_length; lia).
    rewrite Z.eqb_refl. reflexivity.
Qed.

Lemma round_trip_through_library_witness :
  outcome (passDecryptSync example_detached
             (IsBuffer (repeat x2a 80 ++ Buffer_of_string "abc")%list)
             (IsString "pw"))
  = Return (Buffer_of_string "abc").
Proof.
  destruct (round_trip_through_library example_detached
              (IsString "abc") (IsString "pw") [] 80 eq_refl ltac:(lia)) as [H _].
  exact (H (repeat x2a 80 ++ Buffer_of_string "abc")%list eq_refl eq_refl).
Defined.

(** * Properties of examples/bin/dns-example.js *)

Lemma split_nonempty (sep : ascii) (str : string) : split sep str <> [].
Proof.
  destruct str as [| c rest]; cbn; [discriminate |].
  destruct (Ascii.eqb c sep); [discriminate |].
  destruct (split sep rest); discriminate.
Qed.

(** There is one piece more than there are separators. *)
Lemma split_length (sep : ascii) (str : string) :
  List.length (split sep str) = S (count_char sep str).
Proof.
  induction str as [| c rest IH]; cbn; [reflexivity |].
  destruct (Ascii.eqb c sep); cbn; [now rewrite IH |].
  destruct (split sep rest) as [| piece pieces] eqn:Hs; cbn in *; [discriminate IH |].
  exact IH.
Qed.

(** No piece contains the separator. *)
Lemma split_pieces_free (sep : ascii) (str : string) :
  Forall (fun piece => count_char sep piece = 0%nat) (split sep str).
Proof.
  induction str as [| c rest IH]; cbn; [repeat constructor |].
  destruct (Ascii.eqb c sep) eqn:Hc; [constructor; [reflexivity | exact IH] |].
  destruct (split sep rest) as [| piece pieces]; [repeat constructor; cbn; now rewrite Hc |].
  inversion IH as [| ? ? Hp Hps]; subst.
  constructor; [cbn; rewrite Hc; exact Hp | exact Hps].
Qed.

(** A text that splits in one piece is that piece. *)
Lemma split_one (sep : ascii) (str piece : string) :
  split sep str = [piece] -> str = piece.
Proof.
  revert piece. induction str as [| c rest IH]; intros piece H; cbn in H.
  - now injection H as <-.
  - destruct (Ascii.eqb c sep).
    + injection H as _ Hrest. exfalso. now apply (split_nonempty sep rest).
    + destruct (split sep rest) as [| p ps] eqn:Hs.
      * exfalso. now apply (split_nonempty sep rest).
      * injection H as <- ->. f_equal. now apply IH.
Qed.

(** A text that splits in two is its first piece, the separator, its second
    piece. *)
Lemma split_two (sep : ascii) (str first second : string) :
  split sep str = [first; second] ->
  str = (first ++ String sep second)%string.
Proof.
  revert first. induction str as [| c rest IH]; intros first H; cbn in H.
  - discriminate H.
  - destruct (Ascii.eqb_spec c sep) as [-> | Hne].
    + injection H as <- Hrest. apply split_one in Hrest. now subst.
    + destruct (split sep rest) as [| piece pieces] eqn:Hs; [discriminate H |].
      injection H as <- ->. cbn. f_equal. apply IH. reflexivity.
Qed.

Lemma split_free (sep : ascii) (str : string) :
  count_char sep str = 0%nat -> split sep str = [str].
Proof.
  induction str as [| c rest IH]; cbn; [reflexivity |].
  destruct (Ascii.eqb c sep); [discriminate |].
  intros Hz. now rewrite (IH Hz).
Qed.

Lemma split_app (sep : ascii) (first rest : string) :
  count_char sep first = 0%nat ->
  split sep (first ++ String sep rest)%string = first :: split sep rest.
Proof.
  induction first as [| c first IH]; cbn.
  - intros _. now rewrite Ascii.eqb_refl.
  - destruct (Ascii.eqb c sep); [discriminate |].
    intros Hz. now rewrite (IH Hz).
Qed.

Lemma getAddressDomain_Some (dnsaddr domain : string) :
  getAddressDomain dnsaddr = Some domain
  <-> exists user,
        dnsaddr = (user ++ String "@" domain)%string
        /\ count_char "@" user = 0%nat /\ count_char "@" domain = 0%nat.
Proof.
  unfold getAddressDomain. split.
  - destruct (split "@" dnsaddr) as [| user [| d [| ? ?]]] eqn:Hs; try discriminate.
    intros H. injection H as ->. exists user.
    pose proof (split_pieces_free "@" dnsaddr) as Hfree. rewrite Hs in Hfree.
    inversion Hfree as [| ? ? Hu Hrest]; subst.
    inversion Hrest as [| ? ? Hd _]; subst.
    split; [now apply split_two | split; assumption].
  - intros (user & -> & Hu & Hd).
    rewrite (split_app "@" user domain Hu), (split_free "@" domain Hd). reflexivity.
Qed.

(** X12.  [getAddressDomain] answers a domain exactly for the addresses with one
    ["@"], and the domain is what follows the ["@"]: the address is the user
    part, ["@"], the domain, neither holding an ["@"].  An address ending in
    ["@"] gets the empty domain, not [undefined]. *)
Theorem getAddressDomain_one_at (dnsaddr : string) :
  (getAddressDomain dnsaddr = None <-> count_char "@" dnsaddr <> 1%nat)
  /\ (forall domain,
        getAddressDomain dnsaddr = Some domain
        <-> exists user,
              dnsaddr = (user ++ String "@" domain)%string
              /\ count_char "@" user = 0%nat /\ count_char "@" domain = 0%nat)
  /\ (forall user,
        count_char "@" user = 0%nat ->
        getAddressDomain (user ++ "@")%string = Some ""%string).
Proof.
  split; [| split].
  - unfold getAddressDomain.
    pose proof (split_length "@" dnsaddr) as Hl.
    destruct (split "@" dnsaddr) as [| a [| b [| c rest]]]; cbn in Hl;
      split; intros H; try reflexivity; try discriminate H; lia.
  - intros domain. apply getAddressDomain_Some.
  - intros user Hu. apply getAddressDomain_Some. exists user. repeat split; assumption.
Qed.

(** X13.  [getClientForAddress] finds a client exactly for the addresses
    [user@toxme.io] with no ["@"] in [user], and the client is the one made
    without a key; an address without exactly one ["@"] finds nothing,
    whatever [Object.prototype] defines. *)
Theorem getClientForAddress_toxme (Object_prototype : string -> bool)
    (dnsaddr : string) :
  (forall client,
     getClientForAddress Object_prototype dnsaddr = Some (OwnClient client)
     <-> client = {| dns_key := None |}
         /\ exists user,
              dnsaddr = (user ++ "@toxme.io")%string
              /\ count_char "@" user = 0%nat)
  /\ (count_char "@" dnsaddr <> 1%nat ->
      getClientForAddress Object_prototype dnsaddr = None)
  /\ (forall user name,
        dnsaddr = (user ++ String "@" name)%string ->
        count_char "@" user = 0%nat -> count_char "@" name = 0%nat ->
        name <> "toxme.io"%string ->
        getClientForAddress Object_prototype dnsaddr
        = if Object_prototype name then Some (Inherited name) else None).
Proof.
  split; [| split]; cycle 2.
  { intros user name -> Hu Hn Hne. unfold getClientForAddress.
    assert (Hd : getAddressDomain (user ++ String "@" name)%string = Some name)
      by (apply getAddressDomain_Some; exists user; auto).
    rewrite Hd. unfold clients_get, clients, clients_literal. cbn -[String.eqb].
    destruct (String.eqb_spec "toxme.io" name) as [Heq | _];
      [exfalso; apply Hne; now symmetry |].
    destruct (Object_prototype name); reflexivity. }
  - intros client. unfold getClientForAddress. split.
    + destruct (getAddressDomain dnsaddr) as [domain |] eqn:Hd; [| discriminate].
      apply getAddressDomain_Some in Hd. destruct Hd as (user & -> & Hu & _).
      unfold clients_get, clients, clients_literal. cbn -[String.eqb].
      destruct (String.eqb_spec "toxme.io" domain) as [<- | Hne]; cbn -[String.eqb].
      * intros H. injection H as <-. split; [reflexivity |].
        exists user. split; [reflexivity | exact Hu].
      * destruct (Object_prototype domain); discriminate.
    + intros (-> & user & -> & Hu).
      assert (Hd : getAddressDomain (user ++ "@toxme.io")%string = Some "toxme.io"%string).
      { apply getAddressDomain_Some. exists user.
        split; [reflexivity | split; [exact Hu | reflexivity]]. }
      rewrite Hd. reflexivity.
  - intros Hcount. unfold getClientForAddress, getAddressDomain.
    pose proof (split_length "@" dnsaddr) as Hl.
    destruct (split "@" dnsaddr) as [| a [| b [| c rest]]]; cbn in Hl;
      try reflexivity.
    exfalso. apply Hcount. lia.
Qed.

Lemma getClientForAddress_toxme_witness :
  getClientForAddress (fun _ => false) "user@example.org@toxme.io" = None.
Proof.
  apply (getClientForAddress_toxme (fun _ => false) "user@example.org@toxme.io").
  cbn. discriminate.
Defined.

Lemma getAddressDomain_one_at_witness :
  getAddressDomain "user@" = Some ""%string.
Proof.
  destruct (getAddressDomain_one_at "user@") as (_ & _ & H).
  exact (H "user"%string eq_refl).
Defined.

(** * Further properties of lib/old/toxencryptsave.js *)

(** ** What one call costs *)



(** ** Failures of the ffi layer *)

(** X5.  When the primitive an operation is named after is reached (the
    preliminary query answered, a handle is there if needed) and fails in
    the ffi layer with [e], the blocking call throws [e] itself and the
    handler receives [e] itself: the error is neither wrapped nor replaced. *)
Theorem ffi_failure_surfaces (this : ToxEncryptSave) (op : Operation) (e : JsError) :
  main_result this op = FfiErr e ->
  query_answered this op ->
  (handle_bound op = true -> getHandle this <> None) ->
  outcome (invokeSync this op) = Throw e
  /\ entered_main op (events (invokeSync this op)) = true
  /\ exists r, callbacks (events (invoke this op true)) = [EvCallback (Some e) r].
Proof.
  intros Hm Hq Hh. unfold query_answered, getHandle, entered_main in *.
  open_this this.
  destruct op; cbn in Hm, Hq; unfold_methods; tidy.
  all: try (destruct tox_ as [[[h |]] |]; tidy;
            try (exfalso; apply Hh; reflexivity)).
  all: revert Hm Hq; repeat (step_match; tidy); intros Hm Hq;
       try contradiction; try discriminate Hm; try injection Hm as ->.
  all: split; [reflexivity | split; [reflexivity | eexists; reflexivity]].
Qed.

Lemma ffi_failure_surfaces_witness :
  outcome (invokeSync example_attached_broken
             (EncryptedLoad (IsString "abc") (IsString "pw")))
  = Throw (Error "ffi").
Proof.
  refine (proj1 (ffi_failure_surfaces example_attached_broken
                   (EncryptedLoad (IsString "abc") (IsString "pw")) (Error "ffi")
                   eq_refl I _)).
  intros _ H. discriminate H.
Defined.
